(** * jwti: token invalidation on top of jsonwebtoken and redis

    A shallow embedding of the [Jwti] class (the invalidation registry, the
    verification decision engine and [sign]) and of the part of JavaScript
    it relies on, followed by the properties of the specification. *)

From Stdlib Require Import ZArith Ascii String List Bool Lia.
From stdpp Require Import base option strings pretty gmap.
Import ListNotations.
Local Open Scope string_scope.
Local Open Scope Z_scope.

(** ** JavaScript numbers

    Every instant the program handles is either [+new Date() / 1000]
    (an integer count of milliseconds divided by 1000) or a whole-second
    [iat] claim.  A finite number [x] is therefore kept as the integer
    [1000 * x]; [NaN] is kept apart.  Subtraction and the comparisons
    with zero used by the program are exact on this grid. *)
Module JsNumber.

Inductive number : Type :=
  | NaN
  | Fin (thousandths : Z).

#[global] Instance number_eq_dec : EqDecision number.
Proof. solve_decision. Defined.

(** [+new Date() / 1000] when the clock reads [now] milliseconds. *)
Definition seconds_of_date (now : Z) : number := Fin now.

(** A whole number of seconds, such as jsonwebtoken's [iat]. *)
Definition of_seconds (s : Z) : number := Fin (1000 * s).

(** [a - b] *)
Definition sub (a b : number) : number :=
  match a, b with
  | Fin x, Fin y => Fin (x - y)
  | _, _ => NaN
  end.

(** [a < 0]: every comparison with [NaN] is false. *)
Definition lt0 (a : number) : bool :=
  match a with
  | Fin x => x <? 0
  | NaN => false
  end.

(** [a > 0] *)
Definition gt0 (a : number) : bool :=
  match a with
  | Fin x => 0 <? x
  | NaN => false
  end.

(** ToBoolean on a number: [0] and [NaN] are falsy. *)
Definition truthy (a : number) : bool :=
  match a with
  | Fin x => negb (x =? 0)
  | NaN => false
  end.

(** The mathematical order on finite numbers, used to state properties. *)
Definition lt (a b : number) : Prop :=
  match a, b with
  | Fin x, Fin y => x < y
  | _, _ => False
  end.

Definition digit (d : Z) : string :=
  String (ascii_of_N (48 + Z.to_N d)) EmptyString.

(** The fractional digits of [r] thousandths, without trailing zeros. *)
Definition fraction (r : Z) : string :=
  if r =? 0 then ""
  else
    let d1 := r / 100 in
    let d2 := (r / 10) mod 10 in
    let d3 := r mod 10 in
    "." +:+ digit d1 +:+
    (if negb (d3 =? 0) then digit d2 +:+ digit d3
     else if negb (d2 =? 0) then digit d2
     else "").

(** Number::toString (radix 10), as used by [String(n)], template
    literals, [JSON.stringify] and the redis client's argument encoding:
    plain decimal notation, which is what JavaScript writes for
    magnitudes below 1e21 (every clock reading; exponent notation
    beyond is not written). *)
Definition toString (n : number) : string :=
  match n with
  | NaN => "NaN"
  | Fin z =>
      let a := Z.abs z in
      (if z <? 0 then "-" else "") +:+ pretty (Z.to_N (a / 1000)) +:+ fraction (a mod 1000)
  end.

Definition digit_value (c : ascii) : option Z :=
  let n := Z.of_N (N_of_ascii c) in
  if (48 <=? n) && (n <=? 57) then Some (n - 48) else None.

(** Reads a maximal run of decimal digits: its value, how many digits
    were read, and the rest of the input. *)
Fixpoint read_digits (s : string) (acc : Z) (count : nat) : Z * nat * string :=
  match s with
  | String c rest =>
      match digit_value c with
      | Some d => read_digits rest (10 * acc + d) (S count)
      | None => (acc, count, s)
      end
  | EmptyString => (acc, count, s)
  end.

(** The first three fractional digits as thousandths; digits beyond the
    third lie below the resolution of the grid. *)
Fixpoint read_fraction (s : string) (scale : Z) (acc : Z) (count : nat) : Z * nat :=
  match s with
  | String c rest =>
      match digit_value c with
      | Some d => read_fraction rest (scale / 10) (acc + scale * d) (S count)
      | None => (acc, count)
      end
  | EmptyString => (acc, count)
  end.

Definition is_white_space (c : ascii) : bool :=
  let n := N_of_ascii c in
  ((n =? 32) || (n =? 9) || (n =? 10) || (n =? 11) || (n =? 12) || (n =? 13))%N.

Fixpoint trim_start (s : string) : string :=
  match s with
  | String c rest => if is_white_space c then trim_start rest else s
  | EmptyString => s
  end.

Definition read_unsigned (s : string) : option Z :=
  let '(i, ni, rest) := read_digits s 0 0%nat in
  let '(f, nf) :=
    match rest with
    | String "." rest' => read_fraction rest' 100 0 0%nat
    | _ => (0, 0%nat)
    end in
  if ((ni + nf)%nat =? 0)%nat then None else Some (1000 * i + f).

(** [parseFloat] on plain decimal literals (optional sign, digits,
    optional fraction), the format [toString] writes, on which it is
    exact ([parseFloat_toString]); a string that does not start with
    one gives [NaN].  Exponent parts and [Infinity] are not read, and
    fractional digits past the third are dropped. *)
Definition parseFloat (s : string) : number :=
  match trim_start s with
  | String "-" rest => match read_unsigned rest with Some v => Fin (- v) | None => NaN end
  | String "+" rest => match read_unsigned rest with Some v => Fin v | None => NaN end
  | t => match read_unsigned t with Some v => Fin v | None => NaN end
  end.

End JsNumber.
Export JsNumber(number, NaN, Fin).

(** ** JavaScript values

    The values that reach the program: identifiers ([string | number |
    Object]), option bags, decoded payloads and token headers.  An object
    is the list of its own enumerable properties in enumeration order
    (insertion order for names that are not array indices); a function is
    opaque. *)
#[local] Set Warnings "-register-all".
Inductive JsValue : Type :=
  | JUndefined
  | JNull
  | JBool (b : bool)
  | JNum (n : number)
  | JStr (s : string)
  | JObj (props : list (string * JsValue))
  | JArr (elems : list JsValue)
  | JFun (name : string).

Inductive JsType : Type :=
  | TUndefined | TObject | TBoolean | TNumber | TString | TFunction.

#[global] Instance JsType_eq_dec : EqDecision JsType.
Proof. solve_decision. Defined.

(** [typeof v] *)
Definition typeof (v : JsValue) : JsType :=
  match v with
  | JUndefined => TUndefined
  | JNull => TObject
  | JBool _ => TBoolean
  | JNum _ => TNumber
  | JStr _ => TString
  | JObj _ => TObject
  | JArr _ => TObject
  | JFun _ => TFunction
  end.

(** ToBoolean: [Boolean(v)], [!v], the test of [if], [&&], [||] and [?:]. *)
Definition truthy (v : JsValue) : bool :=
  match v with
  | JUndefined | JNull => false
  | JBool b => b
  | JNum n => JsNumber.truthy n
  | JStr s => negb (String.eqb s "")
  | JObj _ | JArr _ | JFun _ => true
  end.

(** [a || b] *)
Definition js_or (a b : JsValue) : JsValue := if truthy a then a else b.

Fixpoint assoc (k : string) (ps : list (string * JsValue)) : option JsValue :=
  match ps with
  | [] => None
  | (k', v) :: rest => if String.eqb k k' then Some v else assoc k rest
  end.

(** [v.k] for a [v] that is neither [undefined] nor [null], and for the
    names the program reads ([header], [jwti], [user], [client], [iat],
    [precise]): a missing property, or any such name on a primitive, an
    array or a function, is [undefined]. *)
Definition get_prop (v : JsValue) (k : string) : JsValue :=
  match v with
  | JObj ps => default JUndefined (assoc k ps)
  | _ => JUndefined
  end.

Definition is_nullish (v : JsValue) : bool :=
  match v with
  | JUndefined | JNull => true
  | _ => false
  end.

(** [v.k] where [v] may be [undefined] or [null]: that is a TypeError,
    rendered as [None]. *)
Definition member (v : JsValue) (k : string) : option JsValue :=
  if is_nullish v then None else Some (get_prop v k).

(** Assignment keeps the position of an existing property and appends a
    new one. *)
Fixpoint assign_prop (k : string) (x : JsValue) (ps : list (string * JsValue))
  : list (string * JsValue) :=
  match ps with
  | [] => [(k, x)]
  | (k', v) :: rest =>
      if String.eqb k k' then (k', x) :: rest else (k', v) :: assign_prop k x rest
  end.

Fixpoint remove_prop (k : string) (ps : list (string * JsValue))
  : list (string * JsValue) :=
  match ps with
  | [] => []
  | (k', v) :: rest =>
      if String.eqb k k' then remove_prop k rest else (k', v) :: remove_prop k rest
  end.

(** [k in v] restricted to own properties. *)
Definition has_prop (v : JsValue) (k : string) : bool :=
  match v with
  | JObj ps => bool_decide (is_Some (assoc k ps))
  | _ => false
  end.

(** [delete v.k]: removes the property of an object; on the other values
    the names the program deletes do not exist and nothing happens. *)
Definition delete_prop (v : JsValue) (k : string) : JsValue :=
  match v with
  | JObj ps => JObj (remove_prop k ps)
  | _ => v
  end.

Fixpoint index_props_from (i : N) (vs : list JsValue) : list (string * JsValue) :=
  match vs with
  | [] => []
  | v :: rest => (pretty i, v) :: index_props_from (N.succ i) rest
  end.

Fixpoint chars (s : string) : list JsValue :=
  match s with
  | EmptyString => []
  | String c rest => JStr (String c EmptyString) :: chars rest
  end.

(** The own enumerable properties copied by [{...v}] and [Object.assign]. *)
Definition own_enumerable (v : JsValue) : list (string * JsValue) :=
  match v with
  | JObj ps => ps
  | JArr es => index_props_from 0 es
  | JStr s => index_props_from 0 (chars s)
  | _ => []
  end.

(** ** JSON.stringify *)
Module JSON.

Definition dquote : string := String (ascii_of_nat 34) EmptyString.
Definition backslash : string := String (ascii_of_nat 92) EmptyString.

Definition hex_digit (n : N) : string :=
  String (ascii_of_N (if (n <? 10)%N then 48 + n else 87 + n)) EmptyString.

Definition escape_char (c : ascii) : string :=
  let n := N_of_ascii c in
  if (n =? 34)%N then backslash +:+ dquote
  else if (n =? 92)%N then backslash +:+ backslash
  else if (n =? 8)%N then backslash +:+ "b"
  else if (n =? 9)%N then backslash +:+ "t"
  else if (n =? 10)%N then backslash +:+ "n"
  else if (n =? 12)%N then backslash +:+ "f"
  else if (n =? 13)%N then backslash +:+ "r"
  else if (n <? 32)%N then backslash +:+ "u00" +:+ hex_digit (n / 16) +:+ hex_digit (n mod 16)
  else String c EmptyString.

Fixpoint escape (s : string) : string :=
  match s with
  | EmptyString => ""
  | String c rest => escape_char c +:+ escape rest
  end.

(** QuoteJSONString *)
Definition quote (s : string) : string := dquote +:+ escape s +:+ dquote.

Fixpoint join (parts : list string) : string :=
  match parts with
  | [] => ""
  | [p] => p
  | p :: rest => p +:+ "," +:+ join rest
  end.

(** [JSON.stringify(v)]; [None] is the result [undefined].  Properties
    are written in enumeration order; a property whose value has no JSON
    form is left out, an array element without one is written [null]. *)
Fixpoint stringify (v : JsValue) : option string :=
  match v with
  | JUndefined => None
  | JFun _ => None
  | JNull => Some "null"
  | JBool b => Some (if b then "true" else "false")
  | JNum n => Some (match n with NaN => "null" | Fin _ => JsNumber.toString n end)
  | JStr s => Some (quote s)
  | JArr es =>
      let fix elements (es : list JsValue) : list string :=
        match es with
        | [] => []
        | e :: rest => default "null" (stringify e) :: elements rest
        end in
      Some ("[" +:+ join (elements es) +:+ "]")
  | JObj ps =>
      let fix members (ps : list (string * JsValue)) : list string :=
        match ps with
        | [] => []
        | (k, x) :: rest =>
            match stringify x with
            | Some s => (quote k +:+ ":" +:+ s) :: members rest
            | None => members rest
            end
        end in
      Some ("{" +:+ join (members ps) +:+ "}")
  end.

End JSON.

(** Template-literal conversion of the result of [JSON.stringify]. *)
Definition template_string (s : option string) : string := default "undefined" s.

(** ** Errors (errors.ts) and outcomes of asynchronous calls *)
Inductive InvalidationType : Type :=
  | TYPE_TOKEN
  | TYPE_USER_CLIENT
  | TYPE_USER
  | TYPE_CLIENT.

(** The string each tag stands for. *)
Definition InvalidationType_string (t : InvalidationType) : string :=
  match t with
  | TYPE_TOKEN => "token"
  | TYPE_USER_CLIENT => "user-client"
  | TYPE_USER => "user"
  | TYPE_CLIENT => "client"
  end.

Inductive Error : Type :=
  | InvalidatedTokenError (message : string) (invalidationType : InvalidationType)
      (invalidationTime : number)
  | RedisError (command : string) (key : string)
  | JwtError (message : string)
  | TypeError.

(** A settled promise (or a finished synchronous call): fulfilled with a
    value or rejected with an error. *)
Inductive Outcome (A : Type) : Type :=
  | Ok (a : A)
  | Throw (e : Error).
Arguments Ok {A} a.
Arguments Throw {A} e.

(** ** The redis client and the console

    [store] is the keyspace of the server (redis keeps strings).  Each
    command sent consumes one entry of [faults]: [true] makes that
    command reject with a store error and leaves the keyspace as it was;
    once the list is used up every command succeeds.  [console] collects
    what [console.error] printed, latest first. *)
Record World : Type := mkWorld {
  store : gmap string string;
  faults : list bool;
  console : list Error
}.

Definition healthy (data : gmap string string) : World := mkWorld data [] [].

Definition Async (A : Type) : Type := World -> Outcome A * World.

Definition ret {A} (a : A) : Async A := fun w => (Ok a, w).

Definition throw {A} (e : Error) : Async A := fun w => (Throw e, w).

Definition bind {A B} (m : Async A) (k : A -> Async B) : Async B :=
  fun w =>
    match m w with
    | (Ok a, w') => k a w'
    | (Throw e, w') => (Throw e, w')
    end.

(** [try { body } catch (error) { handler(error) }] *)
Definition try_catch {A} (body : Async A) (handler : Error -> Async A) : Async A :=
  fun w =>
    match body w with
    | (Ok a, w') => (Ok a, w')
    | (Throw e, w') => handler e w'
    end.

Notation "'let*' x ':=' m 'in' k" := (bind m (fun x => k))
  (at level 10, x pattern, m at level 100, k at level 200).

Definition console_error (e : Error) : Async unit :=
  fun w => (Ok tt, mkWorld (store w) (faults w) (e :: console w)).

(** One command on the wire: whether it fails, and the faults left. *)
Definition next_fault (w : World) : bool * list bool :=
  match faults w with
  | [] => (false, [])
  | f :: rest => (f, rest)
  end.

Module redis.

Definition get (key : string) : Async (option string) :=
  fun w =>
    let '(failed, rest) := next_fault w in
    let w' := mkWorld (store w) rest (console w) in
    if failed then (Throw (RedisError "GET" key), w')
    else (Ok (store w !! key), w').

(** [set(key, value)] with a number: the client sends its string form. *)
Definition set (key : string) (value : number) : Async unit :=
  fun w =>
    let '(failed, rest) := next_fault w in
    if failed then (Throw (RedisError "SET" key), mkWorld (store w) rest (console w))
    else (Ok tt, mkWorld (<[key := JsNumber.toString value]> (store w)) rest (console w)).

Definition del (key : string) : Async unit :=
  fun w =>
    let '(failed, rest) := next_fault w in
    if failed then (Throw (RedisError "DEL" key), mkWorld (store w) rest (console w))
    else (Ok tt, mkWorld (delete key (store w)) rest (console w)).

End redis.

(** ** The invalidation registry (private methods of [Jwti]) *)

(** [typeof x === 'string' ? x : JSON.stringify(x)], then interpolated
    into a template literal. *)
Definition identifier_key (x : JsValue) : string :=
  match x with
  | JStr s => s
  | _ => template_string (JSON.stringify x)
  end.

Definition createTokenInvalidation (now : Z) (token : string) : Async unit :=
  let invalidationTime := JsNumber.seconds_of_date now in
  redis.set token invalidationTime.

Definition createUserInvalidation (now : Z) (user : JsValue) : Async unit :=
  let invalidationTime := JsNumber.seconds_of_date now in
  let userKey := identifier_key user in
  let invalidationKey := "user::" +:+ userKey in
  redis.set invalidationKey invalidationTime.

Definition createClientInvalidation (now : Z) (client : JsValue) : Async unit :=
  let invalidationTime := JsNumber.seconds_of_date now in
  let clientKey := identifier_key client in
  let invalidationKey := "user::" +:+ clientKey in
  redis.set invalidationKey invalidationTime.

Definition createUserClientInvalidation (now : Z) (user client : JsValue) : Async unit :=
  let invalidationTime := JsNumber.seconds_of_date now in
  let userKey := identifier_key user in
  let clientKey := identifier_key client in
  let invalidationKey := "user::" +:+ userKey +:+ "::client::" +:+ clientKey in
  redis.set invalidationKey invalidationTime.

(** [invalidationTime ? parseFloat(invalidationTime) : null] on the reply
    of [get]: a missing key and the empty string are both falsy. *)
Definition parse_reply (reply : option string) : option number :=
  match reply with
  | Some s => if negb (String.eqb s "") then Some (JsNumber.parseFloat s) else None
  | None => None
  end.

Definition getTokenInvalidationTime (token : string) : Async (option number) :=
  try_catch
    (let* invalidationTime := redis.get token in
     ret (parse_reply invalidationTime))
    (fun error => let* _ := console_error error in ret None).

Definition getUserInvalidationTime (user : JsValue) : Async (option number) :=
  try_catch
    (let userKey := identifier_key user in
     let invalidationKey := "user::" +:+ userKey in
     let* invalidationTime := redis.get invalidationKey in
     ret (parse_reply invalidationTime))
    (fun error => let* _ := console_error error in ret None).

Definition getClientInvalidationTime (client : JsValue) : Async (option number) :=
  try_catch
    (let clientKey := identifier_key client in
     let invalidationKey := "user::" +:+ clientKey in
     let* invalidationTime := redis.get invalidationKey in
     ret (parse_reply invalidationTime))
    (fun error => let* _ := console_error error in ret None).

Definition getUserClientInvalidationTime (user client : JsValue) : Async (option number) :=
  try_catch
    (let userKey := identifier_key user in
     let clientKey := identifier_key client in
     let invalidationKey := "user::" +:+ userKey +:+ "::client::" +:+ clientKey in
     let* invalidationTime := redis.get invalidationKey in
     ret (parse_reply invalidationTime))
    (fun error => let* _ := console_error error in ret None).

(** ToBoolean on [number | null]. *)
Definition truthy_time (t : option number) : bool :=
  match t with
  | Some n => JsNumber.truthy n
  | None => false
  end.

(** ToBoolean on the reply of [get] ([string | null]). *)
Definition truthy_reply (reply : option string) : bool :=
  match reply with
  | Some s => negb (String.eqb s "")
  | None => false
  end.

Definition revertTokenInvalidation (token : string) : Async bool :=
  let* invalidationTime := redis.get token in
  if truthy_reply invalidationTime then let* _ := redis.del token in ret true
  else ret false.

Definition removeUserClientInvalidation (user client : JsValue) : Async unit :=
  try_catch
    (let userKey := identifier_key user in
     let clientKey := identifier_key client in
     let invalidationKey := "user::" +:+ userKey +:+ "::client::" +:+ clientKey in
     redis.del invalidationKey)
    (fun error => console_error error).

Definition removeUserInvalidation (user : JsValue) : Async unit :=
  try_catch
    (let userKey := identifier_key user in
     let invalidationKey := "user::" +:+ userKey in
     redis.del invalidationKey)
    (fun error => console_error error).

Definition removeClientInvalidation (client : JsValue) : Async unit :=
  try_catch
    (let clientKey := identifier_key client in
     let invalidationKey := "user::" +:+ clientKey in
     redis.del invalidationKey)
    (fun error => console_error error).

Definition revertUserClientInvalidation (user client : JsValue) : Async bool :=
  let* t := getUserClientInvalidationTime user client in
  if truthy_time t then let* _ := removeUserClientInvalidation user client in ret true
  else ret false.

Definition revertUserInvalidation (user : JsValue) : Async bool :=
  let* t := getUserInvalidationTime user in
  if truthy_time t then let* _ := removeUserInvalidation user in ret true
  else ret false.

Definition revertClientInvalidation (client : JsValue) : Async bool :=
  let* t := getClientInvalidationTime client in
  if truthy_time t then let* _ := removeClientInvalidation client in ret true
  else ret false.

(** ** Public methods: revert and invalidate *)

(** [const { user, client } = params] is a TypeError on [undefined] and
    [null]. *)
Definition destructure_params (params : JsValue) : Async (JsValue * JsValue) :=
  match member params "user", member params "client" with
  | Some user, Some client => ret (user, client)
  | _, _ => throw TypeError
  end.

Definition revert (params : JsValue) : Async bool :=
  match params with
  | JStr token => revertTokenInvalidation token
  | _ =>
      let* (user, client) := destructure_params params in
      if truthy user && truthy client then revertUserClientInvalidation user client
      else if truthy user then revertUserInvalidation user
      else if truthy client then revertClientInvalidation client
      else ret false
  end.

Definition jwtiParamExists (param : JsValue) : bool :=
  match param with
  | JNull | JUndefined => false
  | _ => true
  end.

Definition invalidate (now : Z) (params : JsValue) : Async unit :=
  match params with
  | JStr token => createTokenInvalidation now token
  | _ =>
      let* (user, client) := destructure_params params in
      if jwtiParamExists user && jwtiParamExists client
      then createUserClientInvalidation now user client
      else if jwtiParamExists user then createUserInvalidation now user
      else if jwtiParamExists client then createClientInvalidation now client
      else ret tt
  end.

(** ** The jsonwebtoken module handed to the constructor

    [Jwti] receives the library as [jwt] and calls three of its
    functions; what they compute is not the registry's concern.
    [jwt_decode] is [decode(token, { complete: true })]: an object with
    a [header] property, or [null]. *)
Record JwtLib : Type := {
  jwt_sign : JsValue -> JsValue -> JsValue -> JsValue -> Outcome JsValue;
  jwt_verify : string -> JsValue -> JsValue -> JsValue -> Outcome JsValue;
  jwt_decode : string -> JsValue
}.

Definition lift {A} (o : Outcome A) : Async A := fun w => (o, w).

Definition invalidated_message : string := "Token was invalidated in Jwti.".

(** [Number(invalidationTime)] on [number | null]. *)
Definition Number_of_time (t : option number) : number :=
  match t with
  | Some n => n
  | None => Fin 0
  end.

(** The test repeated for each scope in [verify]:
    [const invalid = invalidationTime && iat - invalidationTime < 0;
     if (invalid) throw new InvalidatedTokenError(..., type, invalidationTime)] *)
Definition throw_if_invalid (iat : number) (invalidationTime : option number)
    (type : InvalidationType) : Async unit :=
  match invalidationTime with
  | Some t =>
      if JsNumber.truthy t && JsNumber.lt0 (JsNumber.sub iat t)
      then throw (InvalidatedTokenError invalidated_message type t)
      else ret tt
  | None => ret tt
  end.

(** [Object.assign(target, source)]: the target with the properties of
    the source written onto it.  The target is an object in every typed
    call; any other target is rendered by its own enumerable properties. *)
Definition Object_assign (target : JsValue) (source : list (string * JsValue)) : JsValue :=
  JObj (fold_left (fun ps p => assign_prop (fst p) (snd p) ps) source (own_enumerable target)).

(** Values held by reference: a change made through one name is seen
    through every other. *)
Definition is_reference (v : JsValue) : bool :=
  match v with
  | JObj _ | JArr _ | JFun _ => true
  | _ => false
  end.

Section Jwti.

Variable jwt : JwtLib.

Definition createJwtiHeader (user client iat : JsValue) : JsValue :=
  Object_assign (JObj [("user", user); ("client", client); ("iat", iat)]) [].

(** [sign] reads the clock once ([now] milliseconds) and changes the
    object passed as [options]: the second component of the result is
    that object as the caller finds it afterwards. *)
Definition sign (now : Z) (payload secretOrPrivateKey options callback : JsValue)
  : Outcome JsValue * JsValue :=
  let bag := if bool_decide (typeof options = TObject) then options else JObj [] in
  (* destructuring null is a TypeError *)
  if is_nullish bag then (Throw TypeError, options)
  else
      let user := get_prop bag "user" in
      let client := get_prop bag "client" in
      let precise :=
        match get_prop bag "precise" with
        | JUndefined => JBool false
        | p => p
        end in
      let iat :=
        if truthy precise || negb (bool_decide (typeof payload = TObject))
        then JNum (JsNumber.seconds_of_date now)
        else JUndefined in
      if negb (truthy options) || bool_decide (typeof options = TFunction) then
        if negb (truthy iat)
        then (jwt_sign jwt payload secretOrPrivateKey options callback, options)
        else
          let jwtiHeader := createJwtiHeader JUndefined JUndefined iat in
          let callbackFunction := options in
          (jwt_sign jwt payload secretOrPrivateKey
             (JObj [("header", Object_assign (JObj [("jwti", jwtiHeader)]) [])])
             callbackFunction,
           options)
      else
        let jwtiHeader := createJwtiHeader user client iat in
        let header :=
          Object_assign (js_or (get_prop options "header") (JObj [])) [("jwti", jwtiHeader)] in
        (* Object.assign wrote into options.header itself when there was one *)
        let options1 :=
          match options with
          | JObj ps =>
              if is_reference (get_prop options "header")
              then JObj (assign_prop "header" header ps)
              else options
          | _ => options
          end in
        let options2 :=
          delete_prop (delete_prop (delete_prop options1 "user") "client") "precise" in
        (jwt_sign jwt payload secretOrPrivateKey
           (JObj (assign_prop "header" header (own_enumerable options2)))
           callback,
         options2).

Definition verify (token : string) (secretOrPublicKey options callback : JsValue)
  : Async JsValue :=
  let* decoded := lift (jwt_verify jwt token secretOrPublicKey options callback) in
  if negb (truthy decoded) then ret JUndefined
  else
    let header := get_prop (js_or (jwt_decode jwt token) (JObj [])) "header" in
    match member header "jwti" with
    | None => throw TypeError
    | Some jwti =>
        let jwtiHeader := js_or jwti (JObj []) in
        let user := get_prop jwtiHeader "user" in
        let client := get_prop jwtiHeader "client" in
        let iat := js_or (get_prop jwtiHeader "iat") (get_prop decoded "iat") in
        if negb (truthy jwtiHeader) then
          let* invalidationTime := getTokenInvalidationTime token in
          let invalid :=
            match iat, invalidationTime with
            | JNum i, Some t =>
                if truthy iat && JsNumber.truthy t
                then JsNumber.gt0 (JsNumber.sub i t)
                else JsNumber.truthy t
            | _, _ => truthy_time invalidationTime
            end in
          if invalid
          then throw (InvalidatedTokenError invalidated_message TYPE_TOKEN
                        (Number_of_time invalidationTime))
          else ret decoded
        else
          match iat with
          | JNum iat =>
              if negb (JsNumber.truthy iat) then ret decoded
              else
                let* _ :=
                  if jwtiParamExists user && jwtiParamExists client then
                    let* invalidationTime := getUserClientInvalidationTime user client in
                    throw_if_invalid iat invalidationTime TYPE_USER_CLIENT
                  else ret tt in
                let* _ :=
                  if jwtiParamExists user then
                    let* invalidationTime := getUserInvalidationTime user in
                    throw_if_invalid iat invalidationTime TYPE_USER
                  else ret tt in
                let* _ :=
                  if jwtiParamExists client then
                    let* invalidationTime := getUserInvalidationTime client in
                    throw_if_invalid iat invalidationTime TYPE_CLIENT
                  else ret tt in
                (* OPTIONS EXISTS BUT THERE'S NO USER nor CLIENT present *)
                let* invalidationTime := getTokenInvalidationTime token in
                let* _ := throw_if_invalid iat invalidationTime TYPE_TOKEN in
                ret decoded
          | _ => ret decoded
          end
    end.

End Jwti.

(** ** Vocabulary of the specification *)

(** The keys under which the registry files the four scopes, as the
    create, get and remove helpers build them. *)
Definition token_key (token : string) : string := token.
Definition user_key (user : JsValue) : string := "user::" +:+ identifier_key user.
Definition client_key (client : JsValue) : string := "user::" +:+ identifier_key client.
Definition user_client_key (user client : JsValue) : string :=
  "user::" +:+ identifier_key user +:+ "::client::" +:+ identifier_key client.

(** An invalidation record under [key] with instant [t]: the key holds
    a string that reads as the nonzero number [t].  This is what every
    [get...InvalidationTime] caller takes for a record; instants are
    clock readings [+new Date() / 1000]. *)
Definition record (w : World) (key : string) (t : number) : Prop :=
  parse_reply (store w !! key) = Some t /\ JsNumber.truthy t = true.

(** The lookups [verify] makes for a token with a usable issuance
    instant, in order, each with the scope tag it reports: the scoped
    ones the metadata calls for, then the token's own. *)
Definition scoped_lookups (user client : JsValue) : list (InvalidationType * string) :=
  (if jwtiParamExists user && jwtiParamExists client
   then [(TYPE_USER_CLIENT, user_client_key user client)] else []) ++
  (if jwtiParamExists user then [(TYPE_USER, user_key user)] else []) ++
  (if jwtiParamExists client then [(TYPE_CLIENT, client_key client)] else []).

Definition consulted (user client : JsValue) (token : string)
  : list (InvalidationType * string) :=
  scoped_lookups user client ++ [(TYPE_TOKEN, token_key token)].

(** The jwti metadata of a token ([header.jwti || {}]) and the issuance
    instant [verify] compares with ([jwtiHeader.iat || decoded.iat]). *)
Definition metadata (jwt : JwtLib) (token : string) : option JsValue :=
  match member (get_prop (js_or (jwt_decode jwt token) (JObj [])) "header") "jwti" with
  | Some jwti => Some (js_or jwti (JObj []))
  | None => None
  end.

Definition issuance (jwtiHeader decoded : JsValue) : JsValue :=
  js_or (get_prop jwtiHeader "iat") (get_prop decoded "iat").

(** [verify] ended with the revocation error. *)
Definition revoked {A} (o : Outcome A) : Prop :=
  exists message type time, o = Throw (InvalidatedTokenError message type time).

(** The verdict of the scope checks run in order on a working store:
    the first consulted record newer than [iat] decides. *)
Fixpoint verdict (w : World) (iat : number) (keys : list (InvalidationType * string))
    (decoded : JsValue) : Outcome JsValue :=
  match keys with
  | [] => Ok decoded
  | (type, key) :: rest =>
      match parse_reply (store w !! key) with
      | Some t =>
          if JsNumber.truthy t && JsNumber.lt0 (JsNumber.sub iat t)
          then Throw (InvalidatedTokenError invalidated_message type t)
          else verdict w iat rest decoded
      | None => verdict w iat rest decoded
      end
  end.

(** What [read_unsigned] makes of the fractional digits [toString]
    writes, checked for each of the thousand fractions. *)
Definition fraction_reads_back (r : Z) : bool :=
  match JsNumber.fraction r with
  | EmptyString => r =? 0
  | String c digits =>
      Ascii.eqb c "." && (fst (JsNumber.read_fraction digits 100 0 0) =? r)
      && negb (Nat.eqb (snd (JsNumber.read_fraction digits 100 0 0)) 0)
  end.

(** A stored value that begins with an ASCII letter other than [I]
    (which opens [Infinity]): no white space to skip, no sign, digit or
    point to read, so [parseFloat] gives [NaN] on it. *)
Definition begins_with_letter_other_than_I (s : string) : bool :=
  match s with
  | EmptyString => false
  | String c _ =>
      let n := N_of_ascii c in
      ((((65 <=? n) && (n <=? 90)) || ((97 <=? n) && (n <=? 122))) && negb (n =? 73))%N
  end.

(** The identities of the specification, the argument each one is
    passed as, and the key the code files it under. *)
Inductive Identity : Type :=
  | Token (token : string)
  | User (user : JsValue)
  | Client (client : JsValue)
  | UserClient (user client : JsValue).

Definition params_of (i : Identity) : JsValue :=
  match i with
  | Token token => JStr token
  | User user => JObj [("user", user)]
  | Client client => JObj [("client", client)]
  | UserClient user client => JObj [("user", user); ("client", client)]
  end.

Definition key_of (i : Identity) : string :=
  match i with
  | Token token => token_key token
  | User user => user_key user
  | Client client => client_key client
  | UserClient user client => user_client_key user client
  end.

(** The private helper each public method hands an identity to:
    [invalidate] to a [create...Invalidation], [verify] and [revert] to a
    [get...InvalidationTime], [revert] to a [revert...Invalidation]. *)
Definition create_scope (now : Z) (i : Identity) : Async unit :=
  match i with
  | Token token => createTokenInvalidation now token
  | User user => createUserInvalidation now user
  | Client client => createClientInvalidation now client
  | UserClient user client => createUserClientInvalidation now user client
  end.

Definition lookup_scope (i : Identity) : Async (option number) :=
  match i with
  | Token token => getTokenInvalidationTime token
  | User user => getUserInvalidationTime user
  | Client client => getClientInvalidationTime client
  | UserClient user client => getUserClientInvalidationTime user client
  end.

Definition revert_scope (i : Identity) : Async bool :=
  match i with
  | Token token => revertTokenInvalidation token
  | User user => revertUserInvalidation user
  | Client client => revertClientInvalidation client
  | UserClient user client => revertUserClientInvalidation user client
  end.

(** The identities [invalidate] files a record for (identifiers neither
    [null] nor [undefined]) and those [revert] looks up (identifiers
    truthy). *)
Definition identifiers_exist (i : Identity) : Prop :=
  match i with
  | Token _ => True
  | User user => jwtiParamExists user = true
  | Client client => jwtiParamExists client = true
  | UserClient user client => jwtiParamExists user = true /\ jwtiParamExists client = true
  end.

Definition identifiers_truthy (i : Identity) : Prop :=
  match i with
  | Token _ => True
  | User user => truthy user = true
  | Client client => truthy client = true
  | UserClient user client => truthy user = true /\ truthy client = true
  end.

(** A run that started in [w] left the keyspace as it was and, if it
    was rejected, was rejected with the revocation error. *)
Definition quiet {A} (w : World) (r : Outcome A * World) : Prop :=
  store (snd r) = store w
  /\ forall e, fst r = Throw e ->
       exists message type time, e = InvalidatedTokenError message type time.

(** A jsonwebtoken stand-in for worked examples: every token verifies
    to [decoded] and decodes to a header carrying [jwti]. *)
Definition fixed_jwt (decoded jwti : JsValue) : JwtLib := {|
  jwt_sign := fun _ _ _ _ => Ok (JStr "signed");
  jwt_verify := fun _ _ _ _ => Ok decoded;
  jwt_decode := fun _ => JObj [("header", JObj [("alg", JStr "HS256"); ("jwti", jwti)]);
                               ("payload", decoded)]
|}.

(** A token signed by jsonwebtoken alone: no [jwti] in the header. *)
Definition plain_jwt (decoded : JsValue) : JwtLib := {|
  jwt_sign := fun _ _ _ _ => Ok (JStr "signed");
  jwt_verify := fun _ _ _ _ => Ok decoded;
  jwt_decode := fun _ => JObj [("header", JObj [("alg", JStr "HS256")]);
                               ("payload", decoded)]
|}.

(** ** Worked examples: tokens, stores and clock readings *)

Definition SECRET : JsValue := JStr "SECRET".
Definition PAYLOAD : JsValue := JStr "PAYLOAD".

(** [sign('PAYLOAD', 'SECRET', { user: 1 })] at 1648431003.054. *)
Definition user1_jwt : JwtLib :=
  fixed_jwt PAYLOAD (JObj [("user", JNum (Fin 1000)); ("iat", JNum (Fin 1648431003054))]).

(** [invalidate({ user: 1 })] was called at 1648431003.145. *)
Definition user1_invalidated : World :=
  healthy {[ "user::1" := "1648431003.145" ]}.

(** [invalidate(token)] was called at 1648431003.145 for the token "t". *)
Definition token_invalidated : World :=
  healthy {[ "t" := "1648431003.145" ]}.

(** A token signed by jsonwebtoken alone with an object payload: the
    only instant is the native claim, here 2000. *)
Definition native_jwt : JwtLib :=
  plain_jwt (JObj [("sub", JStr "x"); ("iat", JNum (JsNumber.of_seconds 2000))]).

(** [jsonwebtoken.sign('PAYLOAD', 'SECRET')]: no instant at all. *)
Definition bare_jwt : JwtLib := plain_jwt PAYLOAD.

(** The token "t" was invalidated at 1000, and at 3000. *)
Definition token_invalidated_at_1000 : World := healthy {[ "t" := "1000" ]}.
Definition token_invalidated_at_3000 : World := healthy {[ "t" := "3000" ]}.

(** The record of user 1 is present; the next store command succeeds
    and the one after it fails. *)
Definition user1_removal_fails : World :=
  mkWorld {[ "user::1" := "1648431003.145" ]} [false; true] [].

(** The store is unreachable for the next command. *)
Definition store_down : World :=
  mkWorld {[ "user::1" := "1648431003.145" ]} [true] [].

(** An option bag as a caller may keep it around:
    [{ user: 1, client: 'web', precise: true, expiresIn: '1h' }]. *)
Definition caller_options : JsValue :=
  JObj [("user", JNum (Fin 1000)); ("client", JStr "web"); ("precise", JBool true);
        ("expiresIn", JStr "1h")].

(** [sign('PAYLOAD', 'SECRET', { user: 'web' })] at 1648431003.054. *)
Definition user_web_jwt : JwtLib :=
  fixed_jwt PAYLOAD (JObj [("user", JStr "web"); ("iat", JNum (Fin 1648431003054))]).

(** [sign('PAYLOAD', 'SECRET', { user: 0 })] at 1648431003.054. *)
Definition user0_jwt : JwtLib :=
  fixed_jwt PAYLOAD (JObj [("user", JNum (Fin 0)); ("iat", JNum (Fin 1648431003054))]).

(** The same user written with its properties in two orders:
    [{ id: 1, name: 'John' }] and [{ name: 'John', id: 1 }]. *)
Definition john_id_first : JsValue := JObj [("id", JNum (Fin 1000)); ("name", JStr "John")].
Definition john_name_first : JsValue := JObj [("name", JStr "John"); ("id", JNum (Fin 1000))].

(** [sign('PAYLOAD', 'SECRET', { user: { name: 'John', id: 1 } })] at
    1648431003.054. *)
Definition john_name_first_jwt : JwtLib :=
  fixed_jwt PAYLOAD (JObj [("user", john_name_first); ("iat", JNum (Fin 1648431003054))]).

(** [sign('PAYLOAD', 'SECRET', { user: 1 })] whose header carries no
    instant, the payload being signed elsewhere without one. *)
Definition user1_no_instant_jwt : JwtLib :=
  fixed_jwt PAYLOAD (JObj [("user", JNum (Fin 1000))]).

(** jsonwebtoken rejects every token: the signature is bad. *)
Definition rejecting_jwt : JwtLib := {|
  jwt_sign := fun _ _ _ _ => Ok (JStr "signed");
  jwt_verify := fun _ _ _ _ => Throw (JwtError "invalid signature");
  jwt_decode := fun _ => JNull
|}.

(** The record of user 1 is present and the store rejects the next four
    commands. *)
Definition store_down_for_verify : World :=
  mkWorld {[ "user::1" := "1648431003.145" ]} [true; true; true; true] [].

(** [sign('PAYLOAD', 'SECRET', { user: 1, client: 'web' })] at
    1648431003.054. *)
Definition user1_web_jwt : JwtLib :=
  fixed_jwt PAYLOAD
    (JObj [("user", JNum (Fin 1000)); ("client", JStr "web");
           ("iat", JNum (Fin 1648431003054))]).

(** The pair (user 1, client web), user 1 and the token "t" were all
    invalidated after that token was signed. *)
Definition all_scopes_invalidated : World :=
  healthy {[ "user::1::client::web" := "1648431003.3";
             "user::1" := "1648431003.2";
             "t" := "1648431003.1" ]}.

(** The token "t" is filed with a value that is no number; the same
    value under the key of user 1. *)
Definition token_junk : World := healthy {[ "t" := "revoked" ]}.
Definition user1_junk : World := healthy {[ "user::1" := "revoked" ]}.

(** [sign('PAYLOAD', 'SECRET', { user: 'a', client: 'b' })] at
    1648431003.054. *)
Definition user_a_client_b_jwt : JwtLib :=
  fixed_jwt PAYLOAD
    (JObj [("user", JStr "a"); ("client", JStr "b"); ("iat", JNum (Fin 1648431003054))]).

(** A jsonwebtoken stand-in that answers [sign] with the options it
    was given, to look at what [Jwti.sign] hands over. *)
Definition echo_jwt : JwtLib := {|
  jwt_sign := fun _ _ options _ => Ok options;
  jwt_verify := fun _ _ _ _ => Ok PAYLOAD;
  jwt_decode := fun _ => JNull
|}.

(** Options with a header of their own:
    [{ header: { kid: 'k1' }, user: 1 }]. *)
Definition options_with_header : JsValue :=
  JObj [("header", JObj [("kid", JStr "k1")]); ("user", JNum (Fin 1000))].

(** [invalidate({ user: 0 })] was called at 1648431003.145. *)
Definition user0_invalidated : World :=
  healthy {[ "user::0" := "1648431003.145" ]}.

(** * Properties *)

(** ** Running the registry on a working store *)

Lemma world_eta w : mkWorld (store w) (faults w) (console w) = w.
Proof. by destruct w. Qed.

Lemma redis_get_healthy key w :
  faults w = [] -> redis.get key w = (Ok (store w !! key), w).
Proof.
  intros Hf. unfold redis.get, next_fault. rewrite Hf. simpl.
  by rewrite <- Hf, world_eta.
Qed.

Lemma redis_del_healthy key w :
  faults w = [] ->
  redis.del key w = (Ok tt, mkWorld (delete key (store w)) [] (console w)).
Proof. intros Hf. unfold redis.del, next_fault. by rewrite Hf. Qed.

Lemma redis_set_healthy key v w :
  faults w = [] ->
  redis.set key v w
  = (Ok tt, mkWorld (<[key := JsNumber.toString v]> (store w)) [] (console w)).
Proof. intros Hf. unfold redis.set, next_fault. by rewrite Hf. Qed.

Lemma getTokenInvalidationTime_healthy token w :
  faults w = [] ->
  getTokenInvalidationTime token w = (Ok (parse_reply (store w !! token_key token)), w).
Proof.
  intros Hf. unfold getTokenInvalidationTime, try_catch, bind.
  by rewrite redis_get_healthy.
Qed.

Lemma getUserInvalidationTime_healthy user w :
  faults w = [] ->
  getUserInvalidationTime user w = (Ok (parse_reply (store w !! user_key user)), w).
Proof.
  intros Hf. unfold getUserInvalidationTime, try_catch, bind.
  by rewrite redis_get_healthy.
Qed.

Lemma getClientInvalidationTime_healthy client w :
  faults w = [] ->
  getClientInvalidationTime client w = (Ok (parse_reply (store w !! client_key client)), w).
Proof.
  intros Hf. unfold getClientInvalidationTime, try_catch, bind.
  by rewrite redis_get_healthy.
Qed.

Lemma getUserClientInvalidationTime_healthy user client w :
  faults w = [] ->
  getUserClientInvalidationTime user client w
  = (Ok (parse_reply (store w !! user_client_key user client)), w).
Proof.
  intros Hf. unfold getUserClientInvalidationTime, try_catch, bind.
  by rewrite redis_get_healthy.
Qed.

(** ** Numbers written to the store read back *)

Lemma digit_value_pretty_N_char (d : N) :
  (d < 10)%N -> JsNumber.digit_value (pretty_N_char d) = Some (Z.of_N d).
Proof.
  intros Hd.
  assert (d = 0 \/ d = 1 \/ d = 2 \/ d = 3 \/ d = 4 \/ d = 5 \/ d = 6 \/ d = 7
          \/ d = 8 \/ d = 9)%N as Hcases by lia.
  repeat destruct Hcases as [-> | Hcases]; try reflexivity. subst. reflexivity.
Qed.

Lemma pretty_N_go_app (x : N) (s t : string) :
  pretty_N_go x s +:+ t = pretty_N_go x (s +:+ t).
Proof.
  revert s. induction (N.lt_wf_0 x) as [x _ IH]; intros s.
  destruct (decide (x = 0%N)) as [-> | Hx]; [by rewrite !pretty_N_go_0|].
  rewrite (pretty_N_go_step x s), (pretty_N_go_step x (s +:+ t)) by lia.
  rewrite IH by (apply N.div_lt; lia). reflexivity.
Qed.

Lemma read_digits_pretty_N_go (x : N) (s : string) (acc : Z) (count : nat) :
  exists k : nat,
    JsNumber.read_digits (pretty_N_go x s) acc count
    = JsNumber.read_digits s (acc * 10 ^ Z.of_nat k + Z.of_N x) (count + k)
    /\ ((0 < x)%N -> (0 < k)%nat).
Proof.
  revert s acc count. induction (N.lt_wf_0 x) as [x _ IH]; intros s acc count.
  destruct (decide (x = 0%N)) as [-> | Hx].
  - exists 0%nat. rewrite pretty_N_go_0, Nat.add_0_r. split; [|lia].
    f_equal. simpl. lia.
  - rewrite pretty_N_go_step by lia.
    destruct (IH (x `div` 10)%N) with
      (s := String (pretty_N_char (x `mod` 10)) s) (acc := acc) (count := count)
      as (k & Hk & _); [apply N.div_lt; lia|].
    exists (S k). split; [|lia]. rewrite Hk. simpl.
    rewrite digit_value_pretty_N_char by (apply N.mod_lt; lia).
    f_equal; [|lia].
    rewrite Nat2Z.inj_succ, Z.pow_succ_r by lia.
    pose proof (N.div_mod x 10 ltac:(lia)) as Hdm.
    assert (Z.of_N x = 10 * Z.of_N (x `div` 10) + Z.of_N (x `mod` 10)) by lia.
    lia.
Qed.

Lemma read_digits_pretty (q : N) (rest : string) :
  exists k : nat,
    JsNumber.read_digits (pretty q +:+ rest) 0 0
    = JsNumber.read_digits rest (Z.of_N q) k /\ (0 < k)%nat.
Proof.
  unfold pretty, pretty_N. destruct (decide (q = 0%N)) as [-> | Hq].
  - exists 1%nat. split; [reflexivity | lia].
  - rewrite pretty_N_go_app. change ("" +:+ rest) with rest.
    destruct (read_digits_pretty_N_go q rest 0 0) as (k & Hk & Hpos).
    exists k. rewrite Hk. split; [by rewrite Z.mul_0_l | apply Hpos; lia].
Qed.

Lemma fraction_reads_back_all (r : Z) : 0 <= r < 1000 -> fraction_reads_back r = true.
Proof.
  intros Hr.
  assert (Hall : forallb (fun n => fraction_reads_back (Z.of_nat n)) (seq 0 1000) = true)
    by (vm_compute; reflexivity).
  rewrite forallb_forall in Hall.
  specialize (Hall (Z.to_nat r)). rewrite Z2Nat.id in Hall by lia.
  apply Hall, in_seq. lia.
Qed.

Lemma read_unsigned_toString (q : N) (r : Z) :
  0 <= r < 1000 ->
  JsNumber.read_unsigned (pretty q +:+ JsNumber.fraction r) = Some (1000 * Z.of_N q + r).
Proof.
  intros Hr. unfold JsNumber.read_unsigned.
  destruct (read_digits_pretty q (JsNumber.fraction r)) as (k & -> & Hk).
  pose proof (fraction_reads_back_all r Hr) as Hback. unfold fraction_reads_back in Hback.
  destruct (JsNumber.fraction r) as [|c digits] eqn:Ef.
  - apply Z.eqb_eq in Hback as ->. simpl.
    destruct k; [lia|]. reflexivity.
  - apply andb_true_iff in Hback as [Hback Hn].
    apply andb_true_iff in Hback as [Hc Hv].
    apply Ascii.eqb_eq in Hc as ->. apply Z.eqb_eq in Hv. simpl.
    destruct (JsNumber.read_fraction digits 100 0 0) as [f nf]. simpl in *.
    subst f. destruct k; [lia|]. simpl. done.
Qed.

Lemma pretty_N_go_starts_with_digit (x : N) (s : string) :
  (0 < x)%N -> exists d rest, (d < 10)%N /\ pretty_N_go x s = String (pretty_N_char d) rest.
Proof.
  revert s. induction (N.lt_wf_0 x) as [x _ IH]; intros s Hx.
  rewrite pretty_N_go_step by done.
  destruct (decide (x `div` 10 = 0)%N) as [-> | Hq].
  - rewrite pretty_N_go_0. eexists _, _. split; [|done]. apply N.mod_lt. lia.
  - apply IH; [apply N.div_lt; lia | by apply N.neq_0_lt_0].
Qed.

Lemma pretty_starts_with_digit (q : N) :
  exists d rest, (d < 10)%N /\ pretty q = String (pretty_N_char d) rest.
Proof.
  unfold pretty, pretty_N. destruct (decide (q = 0%N)) as [-> | Hq].
  - by exists 0%N, "".
  - apply pretty_N_go_starts_with_digit. lia.
Qed.

Lemma parseFloat_digit_first (d : N) (rest : string) :
  (d < 10)%N ->
  JsNumber.parseFloat (String (pretty_N_char d) rest)
  = match JsNumber.read_unsigned (String (pretty_N_char d) rest) with
    | Some v => Fin v
    | None => NaN
    end.
Proof.
  intros Hd.
  assert (d = 0 \/ d = 1 \/ d = 2 \/ d = 3 \/ d = 4 \/ d = 5 \/ d = 6 \/ d = 7
          \/ d = 8 \/ d = 9)%N as Hcases by lia.
  repeat destruct Hcases as [-> | Hcases]; try reflexivity. subst. reflexivity.
Qed.

Lemma parseFloat_minus_first (rest : string) :
  JsNumber.parseFloat (String "-" rest)
  = match JsNumber.read_unsigned rest with
    | Some v => Fin (- v)
    | None => NaN
    end.
Proof. reflexivity. Qed.

(** [toString] never writes the empty string. *)
Lemma toString_nonempty (n : number) : JsNumber.toString n <> "".
Proof.
  destruct n as [|z]; [done|]. unfold JsNumber.toString.
  destruct (pretty_starts_with_digit (Z.to_N (Z.abs z `div` 1000))) as (d & rest & _ & ->).
  by destruct (z <? 0).
Qed.

(** [parseFloat(String(x)) = x] for every finite [x] of the grid. *)
Lemma parseFloat_toString (z : Z) : JsNumber.parseFloat (JsNumber.toString (Fin z)) = Fin z.
Proof.
  unfold JsNumber.toString.
  assert (Hr : 0 <= Z.abs z `mod` 1000 < 1000) by (apply Z.mod_pos_bound; lia).
  pose proof (read_unsigned_toString (Z.to_N (Z.abs z `div` 1000)) _ Hr) as Hread.
  rewrite Z2N.id in Hread by (apply Z.div_pos; lia).
  rewrite <- Z.div_mod in Hread by lia.
  destruct (z <? 0) eqn:Hneg.
  - apply Z.ltb_lt in Hneg.
    change ("-" +:+ ?a +:+ ?b) with (String "-" (a +:+ b)).
    rewrite parseFloat_minus_first, Hread. f_equal. lia.
  - apply Z.ltb_ge in Hneg. change ("" +:+ ?a) with a.
    destruct (pretty_starts_with_digit (Z.to_N (Z.abs z `div` 1000)))
      as (d & rest & Hd & Hp).
    rewrite Hp in *. change (String ?c ?a +:+ ?b) with (String c (a +:+ b)) in *.
    rewrite parseFloat_digit_first, Hread by done. f_equal. lia.
Qed.

(** ** The decision engine *)

(** [header.jwti || {}] is never falsy: the branch of [verify] guarded
    by [!jwtiHeader] cannot run. *)
Lemma jwtiHeader_truthy (jwti : JsValue) : truthy (js_or jwti (JObj [])) = true.
Proof. unfold js_or. by destruct (truthy jwti) eqn:E. Qed.

Lemma metadata_truthy jwt token jwtiHeader :
  metadata jwt token = Some jwtiHeader -> truthy jwtiHeader = true.
Proof.
  unfold metadata. destruct (member _ _); [|done].
  intros [= <-]. apply jwtiHeader_truthy.
Qed.

Lemma check_step w iat type key rest decoded
    (lookup : Async (option number)) (k : Async JsValue) :
  faults w = [] ->
  lookup w = (Ok (parse_reply (store w !! key)), w) ->
  k w = (verdict w iat rest decoded, w) ->
  (let* _ := (let* invalidationTime := lookup in
              throw_if_invalid iat invalidationTime type) in k) w
  = (verdict w iat ((type, key) :: rest) decoded, w).
Proof.
  intros Hf Hl Hk. unfold bind, throw_if_invalid. rewrite Hl. simpl.
  destruct (parse_reply (store w !! key)) as [t|]; simpl; [|apply Hk].
  destruct (JsNumber.truthy t && JsNumber.lt0 (JsNumber.sub iat t)); simpl; [done|apply Hk].
Qed.

Lemma skip_step {A} w (k : Async A) : (let* _ := ret tt in k) w = k w.
Proof. done. Qed.

(** On a working store, for a token with a usable issuance instant,
    [verify] computes [verdict] over the consulted keys and sends no
    write. *)
Lemma verify_healthy jwt w token secret options callback decoded jwtiHeader iat :
  faults w = [] ->
  jwt_verify jwt token secret options callback = Ok decoded ->
  truthy decoded = true ->
  metadata jwt token = Some jwtiHeader ->
  issuance jwtiHeader decoded = JNum iat ->
  JsNumber.truthy iat = true ->
  verify jwt token secret options callback w
  = (verdict w iat
       (consulted (get_prop jwtiHeader "user") (get_prop jwtiHeader "client") token)
       decoded, w).
Proof.
  intros Hf Hv Hd Hm Hi Ht.
  pose proof (metadata_truthy _ _ _ Hm) as Hj.
  unfold verify, metadata, issuance in *.
  unfold bind at 1, lift. rewrite Hv, Hd. simpl negb. cbv iota.
  destruct (member _ "jwti") as [jwti|]; [|done].
  injection Hm as Hm. rewrite Hm, Hj, Hi, Ht. simpl negb. cbv iota.
  unfold consulted, scoped_lookups.
  set (user := get_prop jwtiHeader "user").
  set (client := get_prop jwtiHeader "client").
  assert (Hlast :
    (let* invalidationTime := getTokenInvalidationTime token in
     let* _ := throw_if_invalid iat invalidationTime TYPE_TOKEN in ret decoded) w
    = (verdict w iat [(TYPE_TOKEN, token_key token)] decoded, w)).
  { unfold bind. rewrite getTokenInvalidationTime_healthy by done.
    unfold throw_if_invalid, verdict.
    destruct (parse_reply _) as [t|]; [|done].
    by destruct (JsNumber.truthy t && _). }
  destruct (jwtiParamExists user) eqn:Eu, (jwtiParamExists client) eqn:Ec;
    simpl andb; cbv iota; simpl app;
    repeat first
      [ rewrite skip_step
      | apply check_step;
        [ done
        | first [ by apply getUserClientInvalidationTime_healthy
                | by apply getUserInvalidationTime_healthy ]
        | ] ];
    exact Hlast.
Qed.

Lemma newer_spec (iat t : number) :
  JsNumber.truthy t && JsNumber.lt0 (JsNumber.sub iat t) = true
  <-> JsNumber.truthy t = true /\ JsNumber.lt iat t.
Proof.
  rewrite andb_true_iff.
  destruct iat as [|x], t as [|y]; simpl; try (intuition congruence).
  rewrite Z.ltb_lt. intuition lia.
Qed.

Lemma verdict_ok_or_revoked w iat keys decoded :
  verdict w iat keys decoded = Ok decoded \/ revoked (verdict w iat keys decoded).
Proof.
  induction keys as [|[type key] rest IH]; simpl; [by left|].
  destruct (parse_reply _) as [t|]; [|done].
  destruct (JsNumber.truthy t && _); [|done].
  right. by eexists _, _, _.
Qed.

Lemma verdict_revoked_iff w iat keys decoded :
  revoked (verdict w iat keys decoded)
  <-> exists type key t, In (type, key) keys /\ record w key t /\ JsNumber.lt iat t.
Proof.
  induction keys as [|[type key] rest IH]; simpl.
  - split; [intros (? & ? & ? & [=]) | intros (? & ? & ? & [] & _)].
  - destruct (parse_reply (store w !! key)) as [t|] eqn:Ep.
    + destruct (JsNumber.truthy t && JsNumber.lt0 (JsNumber.sub iat t)) eqn:En.
      * split; [intros _ | intros _; by eexists _, _, _].
        apply newer_spec in En as [Ht Hlt].
        exists type, key, t. unfold record. by rewrite Ep; auto.
      * rewrite IH. split.
        { intros (ty & k & t' & Hin & Hr & Hlt). exists ty, k, t'. auto. }
        intros (ty & k & t' & [Heq | Hin] & Hr & Hlt); [|by exists ty, k, t'].
        injection Heq as <- <-. destruct Hr as [Hr Ht]. rewrite Ep in Hr.
        injection Hr as <-.
        assert (JsNumber.truthy t && JsNumber.lt0 (JsNumber.sub iat t) = true)
          by (by apply newer_spec).
        congruence.
    + rewrite IH. split.
      { intros (ty & k & t' & Hin & Hr & Hlt). exists ty, k, t'. auto. }
      intros (ty & k & t' & [Heq | Hin] & Hr & Hlt); [|by exists ty, k, t'].
      injection Heq as <- <-. destruct Hr as [Hr _]. congruence.
Qed.

(** For an issuance instant after the epoch, a stored instant that is
    strictly greater is nonzero: the record may be read off the store
    as it is. *)
Lemma verdict_revoked_iff_after_epoch w (z : Z) keys decoded :
  0 < z ->
  revoked (verdict w (Fin z) keys decoded)
  <-> exists type key t,
        In (type, key) keys /\ parse_reply (store w !! key) = Some t /\ JsNumber.lt (Fin z) t.
Proof.
  intros Hz. rewrite verdict_revoked_iff. unfold record.
  split; intros (ty & k & t & Hin & Hr & Hlt); exists ty, k, t.
  - by destruct Hr.
  - repeat split; try done.
    destruct t as [|y]; [done|]. simpl in *. by destruct (Z.eqb_spec y 0); [lia|].
Qed.

(** C1. For a token whose metadata carries a usable numeric issuance
    instant, on a working store, [verify] throws the revocation error if
    and only if one of the records it consults (user+client, user, client
    or token scope) has an invalidation instant strictly greater than the
    issuance instant; otherwise, in particular when the instants are
    equal, it returns the decoded token. *)
Theorem verify_revoked_iff_record_strictly_newer
    jwt w token secret options callback decoded jwtiHeader iat :
  faults w = [] ->
  jwt_verify jwt token secret options callback = Ok decoded ->
  truthy decoded = true ->
  metadata jwt token = Some jwtiHeader ->
  issuance jwtiHeader decoded = JNum iat ->
  JsNumber.truthy iat = true ->
  let keys := consulted (get_prop jwtiHeader "user") (get_prop jwtiHeader "client") token in
  let outcome := fst (verify jwt token secret options callback w) in
  (revoked outcome
   <-> exists type key t, In (type, key) keys /\ record w key t /\ JsNumber.lt iat t)
  /\ (~ revoked outcome -> outcome = Ok decoded)
  /\ ((forall type key t, In (type, key) keys -> record w key t -> t = iat)
      -> outcome = Ok decoded).
Proof.
  intros Hf Hv Hd Hm Hi Ht keys outcome.
  subst outcome. rewrite (verify_healthy _ _ _ _ _ _ _ _ _ Hf Hv Hd Hm Hi Ht).
  fold keys. simpl fst.
  assert (Hno : ~ revoked (verdict w iat keys decoded) -> verdict w iat keys decoded = Ok decoded).
  { intros Hn. by destruct (verdict_ok_or_revoked w iat keys decoded). }
  split; [apply verdict_revoked_iff|]. split; [done|].
  intros Htie. apply Hno. rewrite verdict_revoked_iff.
  intros (ty & k & t & Hin & Hr & Hlt).
  rewrite (Htie _ _ _ Hin Hr) in Hlt.
  destruct iat; simpl in Hlt; lia.
Qed.

Lemma verify_revoked_iff_record_strictly_newer_witness :
  revoked (fst (verify user1_jwt "t" SECRET JUndefined JUndefined user1_invalidated)).
Proof.
  pose proof (verify_revoked_iff_record_strictly_newer
                user1_jwt user1_invalidated "t" SECRET JUndefined JUndefined PAYLOAD
                (JObj [("user", JNum (Fin 1000)); ("iat", JNum (Fin 1648431003054))])
                (Fin 1648431003054)
                eq_refl eq_refl eq_refl eq_refl eq_refl eq_refl) as H.
  cbv zeta in H. destruct H as [Hiff _].
  apply Hiff. exists TYPE_USER, "user::1", (Fin 1648431003145).
  split; [left; reflexivity|]. split; [split; vm_compute; reflexivity|].
  simpl. lia.
Defined.

Lemma verdict_app_pass w iat l1 l2 decoded :
  (forall type key t, In (type, key) l1 -> record w key t -> ~ JsNumber.lt iat t) ->
  verdict w iat (l1 ++ l2) decoded = verdict w iat l2 decoded.
Proof.
  induction l1 as [|[type key] rest IH]; intros Hpass; simpl; [done|].
  assert (Hrest : verdict w iat (rest ++ l2) decoded = verdict w iat l2 decoded).
  { apply IH. intros ty k t Hin. apply (Hpass ty k t). by right. }
  destruct (parse_reply (store w !! key)) as [t|] eqn:Ep; [|done].
  destruct (JsNumber.truthy t && JsNumber.lt0 (JsNumber.sub iat t)) eqn:En; [|done].
  apply newer_spec in En as [Ht Hlt].
  exfalso. eapply (Hpass type key t); [by left | by split | done].
Qed.

Lemma verdict_token_newer w iat token t decoded :
  record w (token_key token) t -> JsNumber.lt iat t ->
  verdict w iat [(TYPE_TOKEN, token_key token)] decoded
  = Throw (InvalidatedTokenError invalidated_message TYPE_TOKEN t).
Proof.
  intros [Hr Ht] Hlt. simpl. rewrite Hr.
  assert (JsNumber.truthy t && JsNumber.lt0 (JsNumber.sub iat t) = true) as ->
    by (by apply newer_spec).
  done.
Qed.

(** C3 (as amended). For a token with a usable issuance instant the
    token-scope lookup follows the user+client, user and client checks
    whatever the metadata contains: when no scoped record consulted is
    newer than the issuance instant, a token-scope record that is newer
    makes [verify] throw the revocation error of type token, also for a
    token that carries a user or a client. *)
Theorem verify_token_scope_follows_scoped_checks
    jwt w token secret options callback decoded jwtiHeader iat t :
  faults w = [] ->
  jwt_verify jwt token secret options callback = Ok decoded ->
  truthy decoded = true ->
  metadata jwt token = Some jwtiHeader ->
  issuance jwtiHeader decoded = JNum iat ->
  JsNumber.truthy iat = true ->
  (forall type key t',
     In (type, key) (scoped_lookups (get_prop jwtiHeader "user") (get_prop jwtiHeader "client")) ->
     record w key t' -> ~ JsNumber.lt iat t') ->
  record w (token_key token) t ->
  JsNumber.lt iat t ->
  fst (verify jwt token secret options callback w)
  = Throw (InvalidatedTokenError invalidated_message TYPE_TOKEN t).
Proof.
  intros Hf Hv Hd Hm Hi Ht Hpass Hr Hlt.
  rewrite (verify_healthy _ _ _ _ _ _ _ _ _ Hf Hv Hd Hm Hi Ht). simpl fst.
  unfold consulted. rewrite verdict_app_pass by done.
  by apply verdict_token_newer.
Qed.

Lemma verify_token_scope_follows_scoped_checks_witness :
  fst (verify user1_jwt "t" SECRET JUndefined JUndefined token_invalidated)
  = Throw (InvalidatedTokenError invalidated_message TYPE_TOKEN (Fin 1648431003145)).
Proof.
  apply (verify_token_scope_follows_scoped_checks
           user1_jwt token_invalidated "t" SECRET JUndefined JUndefined PAYLOAD
           (JObj [("user", JNum (Fin 1000)); ("iat", JNum (Fin 1648431003054))])
           (Fin 1648431003054) (Fin 1648431003145)
           eq_refl eq_refl eq_refl eq_refl eq_refl eq_refl).
  - intros type key t' [Hin | []] [Hr _]. injection Hin as <- <-.
    vm_compute in Hr. discriminate Hr.
  - split; vm_compute; reflexivity.
  - simpl. lia.
Defined.

(** C3, counterexample. The token carries the user 1 and only the token
    itself was invalidated: [verify] consults the token-scope record and
    throws the revocation error of type token. *)
Lemma token_scope_consulted_for_user_token :
  jwtiParamExists
    (get_prop (JObj [("user", JNum (Fin 1000)); ("iat", JNum (Fin 1648431003054))]) "user")
  = true
  /\ metadata user1_jwt "t"
     = Some (JObj [("user", JNum (Fin 1000)); ("iat", JNum (Fin 1648431003054))])
  /\ fst (verify user1_jwt "t" SECRET JUndefined JUndefined token_invalidated)
     = Throw (InvalidatedTokenError invalidated_message TYPE_TOKEN (Fin 1648431003145)).
Proof. repeat split; vm_compute; reflexivity. Qed.

(** C4 (as amended). For a token with no jwti metadata whose decoded
    payload carries a usable numeric native [iat], on a working store,
    [verify] consults the token-scope record only: it throws the
    revocation error, of type token, if and only if that record's
    instant is strictly greater than the native instant, and returns
    the decoded token otherwise. *)
Theorem verify_without_metadata_checks_token_scope
    jwt w token secret options callback decoded iat :
  faults w = [] ->
  jwt_verify jwt token secret options callback = Ok decoded ->
  truthy decoded = true ->
  member (get_prop (js_or (jwt_decode jwt token) (JObj [])) "header") "jwti"
  = Some JUndefined ->
  get_prop decoded "iat" = JNum iat ->
  JsNumber.truthy iat = true ->
  let outcome := fst (verify jwt token secret options callback w) in
  (revoked outcome <-> exists t, record w (token_key token) t /\ JsNumber.lt iat t)
  /\ (forall t, record w (token_key token) t -> JsNumber.lt iat t ->
        outcome = Throw (InvalidatedTokenError invalidated_message TYPE_TOKEN t))
  /\ (~ revoked outcome -> outcome = Ok decoded).
Proof.
  intros Hf Hv Hd Hm Hi Ht outcome.
  assert (Hmeta : metadata jwt token = Some (JObj [])) by (unfold metadata; by rewrite Hm).
  assert (Hiss : issuance (JObj []) decoded = JNum iat) by (unfold issuance; by rewrite <- Hi).
  subst outcome. rewrite (verify_healthy _ _ _ _ _ _ _ _ _ Hf Hv Hd Hmeta Hiss Ht).
  cbn [fst]. change (consulted _ _ token) with [(TYPE_TOKEN, token_key token)].
  split; [|split].
  - rewrite verdict_revoked_iff. split.
    + intros (ty & k & t & [[= <- <-] | []] & Hr & Hlt). by exists t.
    + intros (t & Hr & Hlt). exists TYPE_TOKEN, (token_key token), t. simpl. auto.
  - intros t. apply verdict_token_newer.
  - intros Hn. by destruct (verdict_ok_or_revoked w iat [(TYPE_TOKEN, token_key token)] decoded).
Qed.

Lemma verify_without_metadata_checks_token_scope_witness :
  fst (verify native_jwt "t" SECRET JUndefined JUndefined token_invalidated_at_3000)
  = Throw (InvalidatedTokenError invalidated_message TYPE_TOKEN (JsNumber.of_seconds 3000)).
Proof.
  pose proof (verify_without_metadata_checks_token_scope
                native_jwt token_invalidated_at_3000 "t" SECRET JUndefined JUndefined
                (JObj [("sub", JStr "x"); ("iat", JNum (JsNumber.of_seconds 2000))])
                (JsNumber.of_seconds 2000)
                eq_refl eq_refl eq_refl eq_refl eq_refl eq_refl) as H.
  cbv zeta in H. destruct H as (_ & Hthrow & _).
  apply Hthrow; [split; vm_compute; reflexivity | simpl; lia].
Defined.

(** C4, counterexample. A token without jwti metadata issued at 2000
    whose token-scope record holds the older instant 1000 (present, and
    not newer than or equal to the token's instant) is returned as
    valid; and so is a token with no instant at all whose token-scope
    record is present. *)
Lemma older_or_uncomparable_token_record_does_not_revoke :
  record token_invalidated_at_1000 (token_key "t") (JsNumber.of_seconds 1000)
  /\ fst (verify native_jwt "t" SECRET JUndefined JUndefined token_invalidated_at_1000)
     = Ok (JObj [("sub", JStr "x"); ("iat", JNum (JsNumber.of_seconds 2000))])
  /\ issuance (JObj []) PAYLOAD = JUndefined
  /\ fst (verify bare_jwt "t" SECRET JUndefined JUndefined token_invalidated_at_1000)
     = Ok PAYLOAD.
Proof. repeat split; vm_compute; reflexivity. Qed.

(** ** Reverting *)

Lemma lookup_scope_healthy i w :
  faults w = [] -> lookup_scope i w = (Ok (parse_reply (store w !! key_of i)), w).
Proof.
  intros Hf. destruct i; simpl.
  - by apply getTokenInvalidationTime_healthy.
  - by apply getUserInvalidationTime_healthy.
  - by apply getClientInvalidationTime_healthy.
  - by apply getUserClientInvalidationTime_healthy.
Qed.

Lemma record_truthy_reply w key t : record w key t -> truthy_reply (store w !! key) = true.
Proof.
  intros [Hr _]. unfold parse_reply, truthy_reply in *.
  destruct (store w !! key) as [s|]; [|done]. by destruct (negb (String.eqb s "")).
Qed.

Lemma remove_healthy w key :
  faults w = [] ->
  try_catch (redis.del key) (fun error => console_error error) w
  = (Ok tt, mkWorld (delete key (store w)) [] (console w)).
Proof. intros Hf. unfold try_catch. by rewrite redis_del_healthy. Qed.

(** On a working store each revert helper deletes the key of a record
    that is present and returns true, and returns false, the world as
    it was, when the key is absent. *)
Lemma revert_scope_healthy (i : Identity) (w : World) :
  faults w = [] ->
  (forall t, record w (key_of i) t ->
     revert_scope i w = (Ok true, mkWorld (delete (key_of i) (store w)) [] (console w)))
  /\ (store w !! key_of i = None -> revert_scope i w = (Ok false, w)).
Proof.
  intros Hf. split.
  - intros t Hr. pose proof (record_truthy_reply _ _ _ Hr) as Hs.
    destruct Hr as [Hr Ht]. destruct i; simpl in *.
    + unfold revertTokenInvalidation, bind. rewrite redis_get_healthy by done.
      unfold token_key in *. rewrite Hs. by rewrite redis_del_healthy.
    + unfold revertUserInvalidation, bind.
      rewrite getUserInvalidationTime_healthy, Hr by done. simpl. rewrite Ht.
      unfold removeUserInvalidation. by rewrite remove_healthy.
    + unfold revertClientInvalidation, bind.
      rewrite getClientInvalidationTime_healthy, Hr by done. simpl. rewrite Ht.
      unfold removeClientInvalidation. by rewrite remove_healthy.
    + unfold revertUserClientInvalidation, bind.
      rewrite getUserClientInvalidationTime_healthy, Hr by done. simpl. rewrite Ht.
      unfold removeUserClientInvalidation. by rewrite remove_healthy.
  - intros Hn. destruct i; simpl in *.
    + unfold revertTokenInvalidation, bind. rewrite redis_get_healthy by done.
      unfold token_key in *. by rewrite Hn.
    + unfold revertUserInvalidation, bind.
      by rewrite getUserInvalidationTime_healthy, Hn by done.
    + unfold revertClientInvalidation, bind.
      by rewrite getClientInvalidationTime_healthy, Hn by done.
    + unfold revertUserClientInvalidation, bind.
      by rewrite getUserClientInvalidationTime_healthy, Hn by done.
Qed.


(** C6, at the failing inputs. [revert] picks the record to look up by
    the truthiness of the identifiers.  For the pair (user 1, client 0),
    which has no record, it looks up and deletes the record of user 1
    and returns true; for user 0, whose record is present, it sends no
    command, returns false and leaves the record in the store. *)
Lemma revert_looks_up_another_identity_when_an_identifier_is_falsy :
  store user1_invalidated !! user_client_key (JNum (Fin 1000)) (JNum (Fin 0)) = None
  /\ store user1_invalidated !! user_key (JNum (Fin 1000)) = Some "1648431003.145"
  /\ fst (revert (JObj [("user", JNum (Fin 1000)); ("client", JNum (Fin 0))])
            user1_invalidated) = Ok true
  /\ store (snd (revert (JObj [("user", JNum (Fin 1000)); ("client", JNum (Fin 0))])
                   user1_invalidated)) !! user_key (JNum (Fin 1000)) = None
  /\ store user0_invalidated !! user_key (JNum (Fin 0)) = Some "1648431003.145"
  /\ revert (JObj [("user", JNum (Fin 0))]) user0_invalidated = (Ok false, user0_invalidated).
Proof. repeat split; vm_compute; reflexivity. Qed.

(** [revert] hands an identity whose identifiers are truthy to the
    helper of its scope. *)
Lemma revert_dispatch (i : Identity) :
  match i with
  | Token _ => True
  | User user => truthy user = true
  | Client client => truthy client = true
  | UserClient user client => truthy user = true /\ truthy client = true
  end ->
  revert (params_of i) = revert_scope i.
Proof.
  destruct i as [token|user|client|user client]; simpl; [done| | |].
  - intros Hu. unfold revert, destructure_params, bind, ret. simpl.
    rewrite Hu. done.
  - intros Hc. unfold revert, destructure_params, bind, ret. simpl.
    rewrite Hc. done.
  - intros [Hu Hc]. unfold revert, destructure_params, bind, ret. simpl.
    rewrite Hu, Hc. done.
Qed.

(** ** Store errors *)

Lemma redis_get_fault key w fs :
  faults w = true :: fs ->
  redis.get key w = (Throw (RedisError "GET" key), mkWorld (store w) fs (console w)).
Proof. intros Hf. unfold redis.get, next_fault. by rewrite Hf. Qed.

Lemma redis_get_pass key w fs :
  faults w = false :: fs ->
  redis.get key w = (Ok (store w !! key), mkWorld (store w) fs (console w)).
Proof. intros Hf. unfold redis.get, next_fault. by rewrite Hf. Qed.

Lemma redis_set_fault key v w fs :
  faults w = true :: fs ->
  redis.set key v w = (Throw (RedisError "SET" key), mkWorld (store w) fs (console w)).
Proof. intros Hf. unfold redis.set, next_fault. by rewrite Hf. Qed.

Lemma redis_del_fault key w fs :
  faults w = true :: fs ->
  redis.del key w = (Throw (RedisError "DEL" key), mkWorld (store w) fs (console w)).
Proof. intros Hf. unfold redis.del, next_fault. by rewrite Hf. Qed.

(** A lookup never rejects, whatever the store does. *)
Lemma lookup_scope_never_throws (i : Identity) (w : World) :
  exists r, fst (lookup_scope i w) = Ok r.
Proof.
  destruct i; simpl;
    unfold getTokenInvalidationTime, getUserInvalidationTime, getClientInvalidationTime,
      getUserClientInvalidationTime, try_catch, bind, redis.get;
    destruct (next_fault w) as [[] rest]; simpl; eauto.
Qed.

Lemma lookup_scope_fault (i : Identity) (w : World) fs :
  faults w = true :: fs ->
  lookup_scope i w
  = (Ok None, mkWorld (store w) fs (RedisError "GET" (key_of i) :: console w)).
Proof.
  intros Hf.
  destruct i; simpl;
    unfold getTokenInvalidationTime, getUserInvalidationTime, getClientInvalidationTime,
      getUserClientInvalidationTime, try_catch, bind;
    by erewrite redis_get_fault by done.
Qed.

Lemma lookup_scope_pass (i : Identity) (w : World) fs :
  faults w = false :: fs ->
  lookup_scope i w
  = (Ok (parse_reply (store w !! key_of i)), mkWorld (store w) fs (console w)).
Proof.
  intros Hf.
  destruct i; simpl;
    unfold getTokenInvalidationTime, getUserInvalidationTime, getClientInvalidationTime,
      getUserClientInvalidationTime, try_catch, bind;
    by erewrite redis_get_pass by done.
Qed.

(** C7 (as amended). A store error during a lookup made by a
    [get...InvalidationTime] helper does not reach the caller: it is
    logged and the record is taken as absent.  A store error during the
    write of [invalidate] rejects the call.  In [revert], the token scope
    passes on a store error of its lookup and of its removal; the user,
    client and user+client scopes log a store error of the removal and
    still return true, the record staying in the store, and return false
    when the lookup fails. *)
Theorem store_errors_open_on_lookup_and_scoped_removal
    (i : Identity) (now : Z) (w1 w2 : World) (fs1 fs2 : list bool) (t : number) :
  faults w1 = true :: fs1 ->
  faults w2 = false :: true :: fs2 ->
  record w2 (key_of i) t ->
  (forall w, exists r, fst (lookup_scope i w) = Ok r)
  /\ lookup_scope i w1
     = (Ok None, mkWorld (store w1) fs1 (RedisError "GET" (key_of i) :: console w1))
  /\ create_scope now i w1
     = (Throw (RedisError "SET" (key_of i)), mkWorld (store w1) fs1 (console w1))
  /\ fst (revert_scope i w1)
     = match i with
       | Token _ => Throw (RedisError "GET" (key_of i))
       | _ => Ok false
       end
  /\ fst (revert_scope i w2)
     = match i with
       | Token _ => Throw (RedisError "DEL" (key_of i))
       | _ => Ok true
       end
  /\ store (snd (revert_scope i w2)) = store w2.
Proof.
  intros Hf1 Hf2 Hr.
  split; [intros w; apply lookup_scope_never_throws|].
  split; [by apply lookup_scope_fault|].
  split.
  { destruct i; simpl;
      unfold createTokenInvalidation, createUserInvalidation, createClientInvalidation,
        createUserClientInvalidation;
      by erewrite redis_set_fault by done. }
  pose proof (record_truthy_reply _ _ _ Hr) as Hs. destruct Hr as [Hr Ht].
  pose proof (lookup_scope_fault i w1 fs1 Hf1) as Hl1.
  pose proof (lookup_scope_pass i w2 (true :: fs2) Hf2) as Hl2.
  destruct i as [token|user|client|user client]; simpl in *.
  - unfold revertTokenInvalidation, bind.
    rewrite (redis_get_fault _ _ _ Hf1), (redis_get_pass _ _ _ Hf2).
    unfold token_key in *. rewrite Hs.
    by erewrite redis_del_fault by done.
  - unfold revertUserInvalidation, bind. rewrite Hl1, Hl2, Hr. simpl. rewrite Ht.
    unfold removeUserInvalidation, try_catch.
    by erewrite redis_del_fault by done.
  - unfold revertClientInvalidation, bind. rewrite Hl1, Hl2, Hr. simpl. rewrite Ht.
    unfold removeClientInvalidation, try_catch.
    by erewrite redis_del_fault by done.
  - unfold revertUserClientInvalidation, bind. rewrite Hl1, Hl2, Hr. simpl. rewrite Ht.
    unfold removeUserClientInvalidation, try_catch.
    by erewrite redis_del_fault by done.
Qed.

Lemma store_errors_open_on_lookup_and_scoped_removal_witness :
  fst (revert_scope (User (JNum (Fin 1000))) user1_removal_fails) = Ok true
  /\ store (snd (revert_scope (User (JNum (Fin 1000))) user1_removal_fails))
     = store user1_removal_fails.
Proof.
  assert (Hr : record user1_removal_fails (key_of (User (JNum (Fin 1000))))
                 (Fin 1648431003145)) by (split; vm_compute; reflexivity).
  pose proof (store_errors_open_on_lookup_and_scoped_removal
                (User (JNum (Fin 1000))) 1648431003145 store_down user1_removal_fails
                [] [] (Fin 1648431003145) eq_refl eq_refl Hr) as H.
  destruct H as (_ & _ & _ & _ & Htrue & Hstore). split; [exact Htrue | exact Hstore].
Defined.

(** C7, counterexample. The record of user 1 is present, the lookup
    succeeds and the removal is rejected by the store: [revert] logs the
    error and returns true; the error does not reach the caller and the
    record is still there. *)
Lemma scoped_removal_error_is_swallowed :
  fst (revert (JObj [("user", JNum (Fin 1000))]) user1_removal_fails) = Ok true
  /\ console (snd (revert (JObj [("user", JNum (Fin 1000))]) user1_removal_fails))
     = [RedisError "DEL" "user::1"]
  /\ store (snd (revert (JObj [("user", JNum (Fin 1000))]) user1_removal_fails)) !! "user::1"
     = Some "1648431003.145".
Proof. repeat split; vm_compute; reflexivity. Qed.

(** ** Objects *)

Lemma assoc_remove_prop_eq k ps : assoc k (remove_prop k ps) = None.
Proof.
  induction ps as [|[k' v] rest IH]; simpl; [done|].
  destruct (String.eqb k k') eqn:E; [done|]. simpl. by rewrite E.
Qed.

Lemma assoc_remove_prop_ne k k' ps :
  k <> k' -> assoc k' (remove_prop k ps) = assoc k' ps.
Proof.
  intros Hne. induction ps as [|[k0 v] rest IH]; simpl; [done|].
  destruct (String.eqb k k0) eqn:E; simpl; [|by rewrite IH].
  apply String.eqb_eq in E as <-.
  destruct (String.eqb k' k) eqn:E'; [|done].
  apply String.eqb_eq in E'. congruence.
Qed.

Lemma assoc_assign_prop_ne k k' x ps :
  k <> k' -> assoc k' (assign_prop k x ps) = assoc k' ps.
Proof.
  intros Hne. induction ps as [|[k0 v] rest IH]; simpl.
  - destruct (String.eqb k' k) eqn:E; [|done]. apply String.eqb_eq in E. congruence.
  - destruct (String.eqb k k0) eqn:E; simpl; [|by rewrite IH].
    apply String.eqb_eq in E as <-.
    destruct (String.eqb k' k) eqn:E'; [|done].
    apply String.eqb_eq in E'. congruence.
Qed.

Lemma has_prop_delete_prop k v : has_prop (delete_prop v k) k = false.
Proof.
  destruct v; simpl; try done.
  rewrite assoc_remove_prop_eq. apply bool_decide_eq_false. by intros [? [=]].
Qed.

Lemma has_prop_delete_prop_other k k' v :
  has_prop v k = false -> has_prop (delete_prop v k') k = false.
Proof.
  destruct v; simpl; try done.
  destruct (decide (k' = k)) as [->|Hne].
  - intros _. rewrite assoc_remove_prop_eq. apply bool_decide_eq_false. by intros [? [=]].
  - by rewrite assoc_remove_prop_ne.
Qed.

Lemma get_prop_delete_prop_ne k k' v :
  k <> k' -> get_prop (delete_prop v k) k' = get_prop v k'.
Proof. intros Hne. destruct v; simpl; try done. by rewrite assoc_remove_prop_ne. Qed.

(** ** sign *)

(** C9. When [sign] is given an options object, the object the caller
    passed comes back without its [user], [client] and [precise]
    properties; the properties other than these and [header] are as
    they were. *)
Theorem sign_deletes_user_client_precise_from_caller_options
    (jwt : JwtLib) (now : Z) (payload secretOrPrivateKey callback : JsValue)
    (props : list (string * JsValue)) :
  let options' := snd (sign jwt now payload secretOrPrivateKey (JObj props) callback) in
  has_prop options' "user" = false
  /\ has_prop options' "client" = false
  /\ has_prop options' "precise" = false
  /\ typeof options' = TObject
  /\ (forall k, k <> "user" -> k <> "client" -> k <> "precise" -> k <> "header" ->
        get_prop options' k = get_prop (JObj props) k).
Proof.
  unfold sign. cbn [typeof truthy negb orb].
  rewrite !bool_decide_eq_true_2 by done.
  rewrite (bool_decide_eq_false_2 (TObject = TFunction)) by done.
  cbn [is_nullish negb orb]. cbv zeta.
  set (header := Object_assign _ _).
  set (options1 := if is_reference (get_prop (JObj props) "header")
                   then JObj (assign_prop "header" header props) else JObj props).
  cbn [snd].
  split; [|split; [|split; [|split]]].
  - do 2 apply has_prop_delete_prop_other. apply has_prop_delete_prop.
  - apply has_prop_delete_prop_other. apply has_prop_delete_prop.
  - apply has_prop_delete_prop.
  - subst options1. by destruct (is_reference _).
  - intros k Hu Hc Hp Hh.
    rewrite !get_prop_delete_prop_ne by done.
    subst options1. destruct (is_reference _); [|done].
    simpl. by rewrite assoc_assign_prop_ne.
Qed.

Lemma sign_deletes_user_client_precise_from_caller_options_witness :
  has_prop caller_options "user" = true
  /\ has_prop (snd (sign (fixed_jwt PAYLOAD JUndefined) 1648431003054 PAYLOAD SECRET
                      caller_options JUndefined)) "user" = false
  /\ get_prop (snd (sign (fixed_jwt PAYLOAD JUndefined) 1648431003054 PAYLOAD SECRET
                      caller_options JUndefined)) "expiresIn" = JStr "1h".
Proof.
  pose proof (sign_deletes_user_client_precise_from_caller_options
                (fixed_jwt PAYLOAD JUndefined) 1648431003054 PAYLOAD SECRET JUndefined
                [("user", JNum (Fin 1000)); ("client", JStr "web"); ("precise", JBool true);
                 ("expiresIn", JStr "1h")]) as H.
  cbv zeta in H. destruct H as (Hu & _ & _ & _ & Hframe).
  split; [reflexivity|]. split; [exact Hu|].
  rewrite Hframe by discriminate. reflexivity.
Defined.

(** ** Parameters that name no identity *)

(** C10. [invalidate] with a params object that has neither a [user] nor
    a [client] resolves without sending any command, and [revert] with
    such an object returns false without sending any: the world, the
    store included, is unchanged. *)
Theorem params_without_user_and_client_leave_store_untouched
    (now : Z) (props : list (string * JsValue)) (w : World) :
  has_prop (JObj props) "user" = false ->
  has_prop (JObj props) "client" = false ->
  invalidate now (JObj props) w = (Ok tt, w)
  /\ revert (JObj props) w = (Ok false, w).
Proof.
  unfold has_prop. intros Hu Hc.
  apply bool_decide_eq_false in Hu. apply bool_decide_eq_false in Hc.
  assert (assoc "user" props = None) as Hu' by (destruct (assoc "user" props); [exfalso; eauto|done]).
  assert (assoc "client" props = None) as Hc' by (destruct (assoc "client" props); [exfalso; eauto|done]).
  unfold invalidate, revert, destructure_params, member, get_prop, bind, ret.
  by rewrite Hu', Hc'.
Qed.

Lemma params_without_user_and_client_leave_store_untouched_witness :
  invalidate 1648431003145 (JObj []) store_down = (Ok tt, store_down)
  /\ revert (JObj []) store_down = (Ok false, store_down).
Proof.
  apply (params_without_user_and_client_leave_store_untouched
           1648431003145 [] store_down eq_refl eq_refl).
Defined.

(** ** Keys *)

(** [invalidate] hands an identity whose identifiers are neither [null]
    nor [undefined] to the helper of its scope. *)
Lemma invalidate_dispatch (now : Z) (i : Identity) :
  match i with
  | Token _ => True
  | User user => jwtiParamExists user = true
  | Client client => jwtiParamExists client = true
  | UserClient user client => jwtiParamExists user = true /\ jwtiParamExists client = true
  end ->
  invalidate now (params_of i) = create_scope now i.
Proof.
  destruct i as [token|user|client|user client]; simpl; [done| | |].
  - intros Hu. unfold invalidate, destructure_params, bind, ret. simpl. by rewrite Hu.
  - intros Hc. unfold invalidate, destructure_params, bind, ret. simpl. by rewrite Hc.
  - intros [Hu Hc]. unfold invalidate, destructure_params, bind, ret. simpl.
    by rewrite Hu, Hc.
Qed.

Lemma create_scope_healthy (now : Z) (i : Identity) (w : World) :
  faults w = [] ->
  create_scope now i w
  = (Ok tt,
     mkWorld (<[key_of i := JsNumber.toString (JsNumber.seconds_of_date now)]> (store w))
       [] (console w)).
Proof.
  intros Hf.
  destruct i; simpl;
    unfold createTokenInvalidation, createUserInvalidation, createClientInvalidation,
      createUserClientInvalidation;
    by rewrite redis_set_healthy.
Qed.

(** C8 (as amended). The store key of an identifier is derived by one
    function on the invalidate path and on the lookup path: the string
    itself, otherwise [JSON.stringify] of the value, which writes the
    properties of an object in their enumeration order.  So on a working
    store the lookup for an identity finds the instant [invalidate] has
    just written for the same identity, its properties in the same
    order. *)
Theorem lookup_finds_record_written_for_same_identifier
    (i : Identity) (now : Z) (w : World) :
  faults w = [] ->
  (forall props, identifier_key (JObj props) = template_string (JSON.stringify (JObj props)))
  /\ store (snd (create_scope now i w)) !! key_of i
     = Some (JsNumber.toString (JsNumber.seconds_of_date now))
  /\ fst (lookup_scope i (snd (create_scope now i w)))
     = Ok (Some (JsNumber.seconds_of_date now)).
Proof.
  intros Hf. split; [done|].
  rewrite create_scope_healthy by done. cbn [snd].
  split; [cbn [store]; by rewrite lookup_insert_eq|].
  rewrite lookup_scope_healthy by done. cbn [fst store].
  rewrite lookup_insert_eq. unfold parse_reply.
  destruct (String.eqb _ "") eqn:E.
  - apply String.eqb_eq in E. by destruct (toString_nonempty (JsNumber.seconds_of_date now)).
  - cbn [negb]. unfold JsNumber.seconds_of_date. by rewrite parseFloat_toString.
Qed.

Lemma lookup_finds_record_written_for_same_identifier_witness :
  fst (lookup_scope (User john_id_first)
         (snd (create_scope 1648431003145 (User john_id_first) (healthy ∅))))
  = Ok (Some (Fin 1648431003145)).
Proof.
  apply (lookup_finds_record_written_for_same_identifier
           (User john_id_first) 1648431003145 (healthy ∅) eq_refl).
Defined.

(** C8, counterexample. Two objects with the same key/value pairs in a
    different insertion order get different keys: an invalidation made
    for one is not found for the other, and the token of the other
    verifies. *)
Lemma reordered_object_gets_another_key :
  (forall k, get_prop john_id_first k = get_prop john_name_first k)
  /\ user_key john_id_first <> user_key john_name_first
  /\ fst (getUserInvalidationTime john_name_first
            (snd (invalidate 1648431003145 (JObj [("user", john_id_first)]) (healthy ∅))))
     = Ok None
  /\ fst (verify john_name_first_jwt "t" SECRET JUndefined JUndefined
            (snd (invalidate 1648431003145 (JObj [("user", john_id_first)]) (healthy ∅))))
     = Ok PAYLOAD.
Proof.
  split; [|split; [|split]].
  - intros k. unfold get_prop, john_id_first, john_name_first. simpl.
    destruct (String.eqb k "id") eqn:Ei, (String.eqb k "name") eqn:En; try done.
    apply String.eqb_eq in Ei, En. congruence.
  - intros H. vm_compute in H. discriminate H.
  - vm_compute. reflexivity.
  - vm_compute. reflexivity.
Qed.

(** C2, at the failing input. [invalidate({ client: 'web' })] writes
    under the key made with the user prefix and leaves the key made with
    the client prefix empty; the token of the user named web, signed
    before, is then rejected as invalidated by user. *)
Lemma client_invalidation_is_filed_under_user_prefix :
  let w := snd (invalidate 1648431003145 (JObj [("client", JStr "web")]) (healthy ∅)) in
  store w !! "client::web" = None
  /\ store w !! "user::web" = Some "1648431003.145"
  /\ client_key (JStr "web") = user_key (JStr "web")
  /\ fst (verify user_web_jwt "t" SECRET JUndefined JUndefined w)
     = Throw (InvalidatedTokenError invalidated_message TYPE_USER (Fin 1648431003145)).
Proof. repeat split; vm_compute; reflexivity. Qed.


(** ** Invalidate, then revert *)

(** On a working store, after an invalidation made when the clock is not
    at the epoch itself, the registry holds a record of the identity with
    the clock reading as its instant. *)
Lemma create_scope_record (now : Z) (i : Identity) (w : World) :
  faults w = [] -> now <> 0 ->
  record (snd (create_scope now i w)) (key_of i) (JsNumber.seconds_of_date now).
Proof.
  intros Hf Hnow. rewrite create_scope_healthy by done. unfold record. cbn [snd store].
  rewrite lookup_insert_eq. unfold parse_reply.
  destruct (String.eqb _ "") eqn:E.
  - apply String.eqb_eq in E. by destruct (toString_nonempty (JsNumber.seconds_of_date now)).
  - cbn [negb]. unfold JsNumber.seconds_of_date. rewrite parseFloat_toString.
    split; [done|]. simpl. by destruct (Z.eqb_spec now 0).
Qed.

(** For an identity whose identifiers are truthy, [invalidate] followed
    by [revert] returns true and leaves no record under its key. *)
Lemma invalidate_then_revert (now : Z) (i : Identity) (w : World) :
  faults w = [] -> now <> 0 ->
  match i with
  | Token _ => True
  | User user => truthy user = true
  | Client client => truthy client = true
  | UserClient user client => truthy user = true /\ truthy client = true
  end ->
  revert (params_of i) (snd (invalidate now (params_of i) w))
  = (Ok true, mkWorld (delete (key_of i) (store w)) [] (console w)).
Proof.
  intros Hf Hnow Hid.
  assert (Hex : match i with
                | Token _ => True
                | User user => jwtiParamExists user = true
                | Client client => jwtiParamExists client = true
                | UserClient user client =>
                    jwtiParamExists user = true /\ jwtiParamExists client = true
                end).
  { destruct i as [?|u|c|u c]; [done| | |]; [| |destruct Hid as [Hu Hc]; split];
      match goal with H : truthy ?v = true |- jwtiParamExists ?v = true =>
        by destruct v end. }
  rewrite invalidate_dispatch, revert_dispatch by done.
  pose proof (create_scope_record now i w Hf Hnow) as Hr.
  assert (Hf' : faults (snd (create_scope now i w)) = [])
    by (by rewrite create_scope_healthy).
  destruct (revert_scope_healthy i _ Hf') as [Hpresent _].
  rewrite (Hpresent _ Hr). rewrite create_scope_healthy by done. cbn [snd store console].
  by rewrite delete_insert_eq.
Qed.

(** A token signed before an invalidation that one of its lookups
    reaches is rejected afterwards. *)
Lemma invalidate_then_verify_revoked
    jwt (now : Z) (i : Identity) (w : World) token secret options callback
    decoded jwtiHeader iat type :
  faults w = [] -> now <> 0 ->
  jwt_verify jwt token secret options callback = Ok decoded ->
  truthy decoded = true ->
  metadata jwt token = Some jwtiHeader ->
  issuance jwtiHeader decoded = JNum iat ->
  JsNumber.truthy iat = true ->
  JsNumber.lt iat (JsNumber.seconds_of_date now) ->
  In (type, key_of i)
     (consulted (get_prop jwtiHeader "user") (get_prop jwtiHeader "client") token) ->
  revoked (fst (verify jwt token secret options callback (snd (create_scope now i w)))).
Proof.
  intros Hf Hnow Hv Hd Hm Hi Ht Hlt Hin.
  assert (Hf' : faults (snd (create_scope now i w)) = [])
    by (by rewrite create_scope_healthy).
  rewrite (verify_healthy _ _ _ _ _ _ _ _ _ Hf' Hv Hd Hm Hi Ht). cbn [fst].
  apply verdict_revoked_iff.
  exists type, (key_of i), (JsNumber.seconds_of_date now).
  split; [done|]. split; [by apply create_scope_record | done].
Qed.

(** C5, at the failing input. After [invalidate({ user: 0 })], the call
    [revert({ user: 0 })] returns false and removes nothing, and the
    token of user 0 signed before the invalidation is still rejected. *)
Lemma revert_skips_falsy_identifier :
  let w := snd (invalidate 1648431003145 (JObj [("user", JNum (Fin 0))]) (healthy ∅)) in
  store w !! "user::0" = Some "1648431003.145"
  /\ revert (JObj [("user", JNum (Fin 0))]) w = (Ok false, w)
  /\ fst (verify user0_jwt "t" SECRET JUndefined JUndefined
            (snd (revert (JObj [("user", JNum (Fin 0))]) w)))
     = Throw (InvalidatedTokenError invalidated_message TYPE_USER (Fin 1648431003145)).
Proof. repeat split; vm_compute; reflexivity. Qed.

(** * Further properties of the code *)

(** ** verify before it reaches the store *)

(** X1. When jsonwebtoken rejects the token, [verify] rejects with the
    same error, and when jsonwebtoken returns a falsy value (the callback
    form), [verify] returns [undefined]; in both cases no store command
    is sent and nothing is logged. *)
Theorem verify_stops_before_store_when_jsonwebtoken_does_not_accept
    jwt w token secret options callback :
  (forall e, jwt_verify jwt token secret options callback = Throw e ->
     verify jwt token secret options callback w = (Throw e, w))
  /\ (forall decoded, jwt_verify jwt token secret options callback = Ok decoded ->
        truthy decoded = false ->
        verify jwt token secret options callback w = (Ok JUndefined, w)).
Proof.
  split.
  - intros e He. unfold verify, bind, lift. by rewrite He.
  - intros decoded Hd Hf. unfold verify, bind, lift. by rewrite Hd, Hf.
Qed.

(** X2. A token whose metadata and payload give no usable numeric
    issuance instant (none, zero, or not a number) is returned as valid
    without any lookup: the world is untouched, whatever records the
    store holds and whether or not it is reachable. *)
Theorem verify_without_usable_instant_consults_nothing
    jwt w token secret options callback decoded jwtiHeader :
  jwt_verify jwt token secret options callback = Ok decoded ->
  truthy decoded = true ->
  metadata jwt token = Some jwtiHeader ->
  (forall n, issuance jwtiHeader decoded = JNum n -> JsNumber.truthy n = false) ->
  verify jwt token secret options callback w = (Ok decoded, w).
Proof.
  intros Hv Hd Hm Hi.
  pose proof (metadata_truthy _ _ _ Hm) as Hj.
  unfold verify, metadata, issuance in *.
  unfold bind at 1, lift. rewrite Hv, Hd. simpl negb. cbv iota.
  destruct (member _ "jwti") as [jwti|]; [|done].
  injection Hm as Hm. rewrite Hm, Hj. simpl negb. cbv iota.
  destruct (js_or (get_prop jwtiHeader "iat") (get_prop decoded "iat")) as [| | |n| | | |];
    try done.
  by rewrite (Hi n eq_refl).
Qed.

Lemma verify_without_usable_instant_consults_nothing_witness :
  record user1_invalidated (user_key (JNum (Fin 1000))) (Fin 1648431003145)
  /\ verify user1_no_instant_jwt "t" SECRET JUndefined JUndefined user1_invalidated
     = (Ok PAYLOAD, user1_invalidated).
Proof.
  split; [split; vm_compute; reflexivity|].
  apply (verify_without_usable_instant_consults_nothing
           user1_no_instant_jwt user1_invalidated "t" SECRET JUndefined JUndefined
           PAYLOAD (JObj [("user", JNum (Fin 1000))]) eq_refl eq_refl eq_refl).
  intros n Hn. vm_compute in Hn. discriminate Hn.
Defined.

(** ** verify on any store *)

Lemma quiet_ret {A} (a : A) w : quiet w (ret a w).
Proof. split; [done|]. by intros e [=]. Qed.

Lemma quiet_bind {A B} (m : Async A) (k : A -> Async B) w :
  quiet w (m w) ->
  (forall a w', store w' = store w -> quiet w' (k a w')) ->
  quiet w (bind m k w).
Proof.
  intros [Hs He] Hk. unfold bind. destruct (m w) as [[a|e] w']; simpl in *.
  - destruct (Hk a w' Hs) as [Hs' He']. split; [congruence|done].
  - split; [done|]. intros e' [= <-]. by apply He.
Qed.

Lemma quiet_get key w :
  quiet w (try_catch (let* invalidationTime := redis.get key in
                      ret (parse_reply invalidationTime))
             (fun error => let* _ := console_error error in ret None) w).
Proof.
  unfold try_catch, bind, redis.get, console_error, ret.
  destruct (next_fault w) as [[] rest]; simpl; (split; [done|by intros e [=]]).
Qed.

Lemma quiet_throw_if_invalid iat t type w : quiet w (throw_if_invalid iat t type w).
Proof.
  unfold throw_if_invalid. destruct t as [t|]; [|apply quiet_ret].
  destruct (_ && _); [|apply quiet_ret].
  split; [done|]. intros e [= <-]. by eexists _, _, _.
Qed.

Lemma quiet_check (lookup : Async (option number)) iat type w :
  (forall w', quiet w' (lookup w')) ->
  quiet w ((let* invalidationTime := lookup in
            throw_if_invalid iat invalidationTime type) w).
Proof.
  intros Hl. apply quiet_bind; [apply Hl|].
  intros t w' _. apply quiet_throw_if_invalid.
Qed.

Lemma quiet_weaken {A} w w' (r : Outcome A * World) :
  store w' = store w -> quiet w' r -> quiet w r.
Proof. intros Hs [Hr He]. split; [congruence|done]. Qed.

Lemma bind_lift {A B} (o : Outcome A) (k : A -> Async B) w :
  bind (lift o) k w = match o with Ok a => k a w | Throw e => (Throw e, w) end.
Proof. by destruct o. Qed.

(** X3. Whatever the store holds and however it fails, [verify] never
    changes the keyspace, and an error it rejects with is the one
    jsonwebtoken threw, a TypeError (no header to read), or the
    revocation error: a store error never reaches the caller. *)
Theorem verify_never_writes_and_never_passes_on_store_errors
    jwt w token secret options callback :
  store (snd (verify jwt token secret options callback w)) = store w
  /\ (forall e, fst (verify jwt token secret options callback w) = Throw e ->
        jwt_verify jwt token secret options callback = Throw e
        \/ e = TypeError
        \/ exists message type time, e = InvalidatedTokenError message type time).
Proof.
  unfold verify. rewrite bind_lift.
  destruct (jwt_verify jwt token secret options callback) as [decoded|e0].
  2:{ split; [done|]. intros e [= <-]. by left. }
  destruct (truthy decoded); cbn [negb].
  2:{ split; [done|]. intros e He. unfold ret in He. discriminate He. }
  destruct (member _ "jwti") as [jwti|].
  2:{ split; [done|]. intros e He. unfold throw in He. injection He as <-. right. by left. }
  rewrite jwtiHeader_truthy. cbn [negb].
  set (jwtiHeader := js_or jwti (JObj [])).
  assert (Hq : forall (r : Outcome JsValue * World), quiet w r ->
    store (snd r) = store w
    /\ (forall e, fst r = Throw e ->
          Ok decoded = Throw e \/ e = TypeError
          \/ exists message type time, e = InvalidatedTokenError message type time)).
  { intros r [Hs He]. split; [done|]. intros e Hr. right. right. by apply He. }
  destruct (js_or (get_prop jwtiHeader "iat") (get_prop decoded "iat")) as [| | |iat| | | |];
    try (apply Hq, quiet_ret).
  destruct (JsNumber.truthy iat); cbn [negb]; [|apply Hq, quiet_ret].
  apply Hq.
  repeat (apply quiet_bind;
          [ first [ destruct (_ && _) | destruct (jwtiParamExists _) ];
            first [ apply quiet_ret
                  | apply quiet_check; intros w0; apply quiet_get ]
          | intros _ ? _ ]).
  apply quiet_bind; [apply quiet_get|]. intros ? ? _.
  apply quiet_bind; [apply quiet_throw_if_invalid|]. intros _ ? _. apply quiet_ret.
Qed.

(** X4. The lookups fail open: for a token with a usable issuance
    instant, when the store rejects the (at most four) commands [verify]
    sends, the token is returned as valid whatever records the store
    holds, the keyspace is unchanged, and each failed lookup is logged. *)
Theorem verify_returns_decoded_when_store_is_down
    jwt w token secret options callback decoded jwtiHeader iat fs :
  faults w = true :: true :: true :: true :: fs ->
  jwt_verify jwt token secret options callback = Ok decoded ->
  truthy decoded = true ->
  metadata jwt token = Some jwtiHeader ->
  issuance jwtiHeader decoded = JNum iat ->
  JsNumber.truthy iat = true ->
  fst (verify jwt token secret options callback w) = Ok decoded
  /\ store (snd (verify jwt token secret options callback w)) = store w
  /\ length (console (snd (verify jwt token secret options callback w)))
     = (length (consulted (get_prop jwtiHeader "user") (get_prop jwtiHeader "client") token)
        + length (console w))%nat.
Proof.
  intros Hf Hv Hd Hm Hi Ht.
  pose proof (metadata_truthy _ _ _ Hm) as Hj.
  destruct w as [st fl cs]. simpl in Hf. subst fl.
  unfold verify, metadata, issuance in *. rewrite bind_lift, Hv, Hd. cbn [negb].
  destruct (member _ "jwti") as [jwti|]; [|done].
  injection Hm as Hm. rewrite Hm, Hj, Hi, Ht. cbn [negb].
  unfold consulted, scoped_lookups.
  destruct (jwtiParamExists (get_prop jwtiHeader "user")),
    (jwtiParamExists (get_prop jwtiHeader "client"));
    repeat split; reflexivity.
Qed.

Lemma verify_returns_decoded_when_store_is_down_witness :
  fst (verify user1_jwt "t" SECRET JUndefined JUndefined store_down_for_verify) = Ok PAYLOAD.
Proof.
  apply (verify_returns_decoded_when_store_is_down
           user1_jwt store_down_for_verify "t" SECRET JUndefined JUndefined PAYLOAD
           (JObj [("user", JNum (Fin 1000)); ("iat", JNum (Fin 1648431003054))])
           (Fin 1648431003054) [] eq_refl eq_refl eq_refl eq_refl eq_refl eq_refl).
Defined.

(** ** Which scope verify reports *)

Lemma verdict_head_newer w iat type key t rest decoded :
  record w key t -> JsNumber.lt iat t ->
  verdict w iat ((type, key) :: rest) decoded
  = Throw (InvalidatedTokenError invalidated_message type t).
Proof.
  intros [Hr Ht] Hlt. simpl. rewrite Hr.
  assert (JsNumber.truthy t && JsNumber.lt0 (JsNumber.sub iat t) = true) as ->
    by (by apply newer_spec).
  done.
Qed.

(** X5. The error [verify] throws names the first lookup, in the order
    user+client, user, client, token, whose record is newer than the
    issuance instant, and carries that record's instant; records of the
    later lookups play no part. *)
Theorem verify_reports_first_newer_record
    jwt w token secret options callback decoded jwtiHeader iat
    (earlier later : list (InvalidationType * string)) type key t :
  faults w = [] ->
  jwt_verify jwt token secret options callback = Ok decoded ->
  truthy decoded = true ->
  metadata jwt token = Some jwtiHeader ->
  issuance jwtiHeader decoded = JNum iat ->
  JsNumber.truthy iat = true ->
  consulted (get_prop jwtiHeader "user") (get_prop jwtiHeader "client") token
  = (earlier ++ (type, key) :: later)%list ->
  (forall type' key' t', In (type', key') earlier -> record w key' t' -> ~ JsNumber.lt iat t') ->
  record w key t ->
  JsNumber.lt iat t ->
  verify jwt token secret options callback w
  = (Throw (InvalidatedTokenError invalidated_message type t), w).
Proof.
  intros Hf Hv Hd Hm Hi Ht Hkeys Hpass Hr Hlt.
  rewrite (verify_healthy _ _ _ _ _ _ _ _ _ Hf Hv Hd Hm Hi Ht), Hkeys.
  rewrite verdict_app_pass by done. by erewrite verdict_head_newer.
Qed.

Lemma verify_reports_first_newer_record_witness :
  verify user1_web_jwt "t" SECRET JUndefined JUndefined all_scopes_invalidated
  = (Throw (InvalidatedTokenError invalidated_message TYPE_USER_CLIENT (Fin 1648431003300)),
     all_scopes_invalidated).
Proof.
  apply (verify_reports_first_newer_record
           user1_web_jwt all_scopes_invalidated "t" SECRET JUndefined JUndefined PAYLOAD
           (JObj [("user", JNum (Fin 1000)); ("client", JStr "web");
                  ("iat", JNum (Fin 1648431003054))])
           (Fin 1648431003054)
           [] [(TYPE_USER, "user::1"); (TYPE_CLIENT, "user::web"); (TYPE_TOKEN, "t")]
           TYPE_USER_CLIENT "user::1::client::web" (Fin 1648431003300)
           eq_refl eq_refl eq_refl eq_refl eq_refl eq_refl eq_refl).
  - intros type' key' t' [].
  - split; vm_compute; reflexivity.
  - simpl. lia.
Defined.

(** ** Invalidations seen from verify *)

Lemma verdict_frame w1 w2 iat keys decoded :
  (forall type key, In (type, key) keys -> store w1 !! key = store w2 !! key) ->
  verdict w1 iat keys decoded = verdict w2 iat keys decoded.
Proof.
  induction keys as [|[type key] rest IH]; intros Hsame; simpl; [done|].
  rewrite (Hsame type key) by (by left).
  rewrite IH by (intros ty k Hin; apply (Hsame ty k); by right).
  done.
Qed.

Lemma invalidate_healthy (now : Z) (i : Identity) (w : World) :
  faults w = [] -> identifiers_exist i ->
  invalidate now (params_of i) w
  = (Ok tt,
     mkWorld (<[key_of i := JsNumber.toString (JsNumber.seconds_of_date now)]> (store w))
       [] (console w)).
Proof.
  intros Hf Hex. rewrite invalidate_dispatch by (by destruct i).
  by apply create_scope_healthy.
Qed.

(** X6. An invalidation whose key is not among the lookups of a token
    does not change what [verify] answers for that token: invalidating
    another user, another client or another token leaves it as it was,
    valid or revoked. *)
Theorem invalidation_of_unconsulted_key_leaves_verify_unchanged
    jwt (now : Z) (i : Identity) w token secret options callback decoded jwtiHeader iat :
  faults w = [] ->
  identifiers_exist i ->
  jwt_verify jwt token secret options callback = Ok decoded ->
  truthy decoded = true ->
  metadata jwt token = Some jwtiHeader ->
  issuance jwtiHeader decoded = JNum iat ->
  JsNumber.truthy iat = true ->
  (forall type,
     ~ In (type, key_of i)
         (consulted (get_prop jwtiHeader "user") (get_prop jwtiHeader "client") token)) ->
  fst (verify jwt token secret options callback (snd (invalidate now (params_of i) w)))
  = fst (verify jwt token secret options callback w).
Proof.
  intros Hf Hex Hv Hd Hm Hi Ht Hnot.
  rewrite invalidate_healthy by done. cbn [snd].
  set (w' := mkWorld _ [] _).
  assert (Hf' : faults w' = []) by done.
  rewrite (verify_healthy _ _ _ _ _ _ _ _ _ Hf Hv Hd Hm Hi Ht).
  rewrite (verify_healthy _ _ _ _ _ _ _ _ _ Hf' Hv Hd Hm Hi Ht). cbn [fst].
  apply verdict_frame. intros type key Hin. subst w'. cbn [store].
  apply lookup_insert_ne. intros <-. by apply (Hnot type).
Qed.

Lemma invalidation_of_unconsulted_key_leaves_verify_unchanged_witness :
  fst (verify user1_jwt "t" SECRET JUndefined JUndefined
         (snd (invalidate 1648431003145 (JObj [("user", JNum (Fin 2000))]) (healthy ∅))))
  = fst (verify user1_jwt "t" SECRET JUndefined JUndefined (healthy ∅)).
Proof.
  apply (invalidation_of_unconsulted_key_leaves_verify_unchanged
           user1_jwt 1648431003145 (User (JNum (Fin 2000))) (healthy ∅)
           "t" SECRET JUndefined JUndefined PAYLOAD
           (JObj [("user", JNum (Fin 1000)); ("iat", JNum (Fin 1648431003054))])
           (Fin 1648431003054) eq_refl eq_refl eq_refl eq_refl eq_refl eq_refl eq_refl).
  intros type [H | [H | []]]; vm_compute in H; discriminate H.
Defined.

Lemma parse_reply_toString (now : Z) :
  parse_reply (Some (JsNumber.toString (JsNumber.seconds_of_date now)))
  = Some (JsNumber.seconds_of_date now).
Proof.
  unfold parse_reply. destruct (String.eqb _ "") eqn:E.
  - apply String.eqb_eq in E. by destruct (toString_nonempty (JsNumber.seconds_of_date now)).
  - cbn [negb]. unfold JsNumber.seconds_of_date. by rewrite parseFloat_toString.
Qed.

Lemma verdict_insert_not_newer w (z now : Z) key keys decoded :
  now <= z ->
  verdict w (Fin z) keys decoded = Ok decoded ->
  verdict (mkWorld (<[key := JsNumber.toString (JsNumber.seconds_of_date now)]> (store w))
             [] (console w)) (Fin z) keys decoded
  = Ok decoded.
Proof.
  intros Hle. induction keys as [|[type k] rest IH]; cbn [verdict store]; [done|].
  intros Hvalid.
  assert (Hrest : verdict w (Fin z) rest decoded = Ok decoded).
  { destruct (parse_reply (store w !! k)) as [t|]; [|done].
    by destruct (JsNumber.truthy t && _). }
  destruct (decide (key = k)) as [<- | Hne].
  - rewrite lookup_insert_eq, parse_reply_toString.
    assert (JsNumber.truthy (JsNumber.seconds_of_date now)
            && JsNumber.lt0 (JsNumber.sub (Fin z) (JsNumber.seconds_of_date now)) = false) as ->.
    { apply andb_false_iff. right. simpl. apply Z.ltb_ge. lia. }
    by apply IH.
  - rewrite lookup_insert_ne by done.
    destruct (parse_reply (store w !! k)) as [t|]; [|by apply IH].
    destruct (JsNumber.truthy t && _); [done | by apply IH].
Qed.

(** X7. An invalidation takes effect only on tokens issued strictly
    before it: a token that verified before the call and whose issuance
    instant is not earlier than the clock reading of [invalidate] still
    verifies afterwards, whichever identity was invalidated. *)
Theorem token_issued_at_or_after_invalidation_stays_valid
    jwt (now z : Z) (i : Identity) w token secret options callback decoded jwtiHeader :
  faults w = [] ->
  identifiers_exist i ->
  jwt_verify jwt token secret options callback = Ok decoded ->
  truthy decoded = true ->
  metadata jwt token = Some jwtiHeader ->
  issuance jwtiHeader decoded = JNum (Fin z) ->
  z <> 0 ->
  now <= z ->
  fst (verify jwt token secret options callback w) = Ok decoded ->
  fst (verify jwt token secret options callback (snd (invalidate now (params_of i) w)))
  = Ok decoded.
Proof.
  intros Hf Hex Hv Hd Hm Hi Hz Hle Hvalid.
  assert (Ht : JsNumber.truthy (Fin z) = true) by (simpl; by destruct (Z.eqb_spec z 0)).
  rewrite invalidate_healthy by done. cbn [snd].
  set (w' := mkWorld _ [] _).
  assert (Hf' : faults w' = []) by done.
  rewrite (verify_healthy _ _ _ _ _ _ _ _ _ Hf Hv Hd Hm Hi Ht) in Hvalid.
  rewrite (verify_healthy _ _ _ _ _ _ _ _ _ Hf' Hv Hd Hm Hi Ht).
  cbn [fst] in *. subst w'. by apply verdict_insert_not_newer.
Qed.

Lemma token_issued_at_or_after_invalidation_stays_valid_witness :
  fst (verify user1_jwt "t" SECRET JUndefined JUndefined
         (snd (invalidate 1648431003054 (JObj [("user", JNum (Fin 1000))]) (healthy ∅))))
  = Ok PAYLOAD.
Proof.
  apply (token_issued_at_or_after_invalidation_stays_valid
           user1_jwt 1648431003054 1648431003054 (User (JNum (Fin 1000))) (healthy ∅)
           "t" SECRET JUndefined JUndefined PAYLOAD
           (JObj [("user", JNum (Fin 1000)); ("iat", JNum (Fin 1648431003054))])
           eq_refl eq_refl eq_refl eq_refl eq_refl eq_refl); [lia | lia | reflexivity].
Defined.

(** X8. A token issued strictly before an invalidation that one of its
    lookups reaches is revoked by it: after [invalidate] for an identity
    whose key the token consults, at a clock reading later than the
    issuance instant, [verify] throws the revocation error. *)
Theorem token_issued_before_invalidation_is_revoked
    jwt (now : Z) (i : Identity) w token secret options callback decoded jwtiHeader iat type :
  faults w = [] ->
  identifiers_exist i ->
  now <> 0 ->
  jwt_verify jwt token secret options callback = Ok decoded ->
  truthy decoded = true ->
  metadata jwt token = Some jwtiHeader ->
  issuance jwtiHeader decoded = JNum iat ->
  JsNumber.truthy iat = true ->
  JsNumber.lt iat (JsNumber.seconds_of_date now) ->
  In (type, key_of i)
     (consulted (get_prop jwtiHeader "user") (get_prop jwtiHeader "client") token) ->
  revoked (fst (verify jwt token secret options callback
                  (snd (invalidate now (params_of i) w)))).
Proof.
  intros Hf Hex Hnow Hv Hd Hm Hi Ht Hlt Hin.
  rewrite invalidate_dispatch by (by destruct i).
  by eapply invalidate_then_verify_revoked.
Qed.

Lemma token_issued_before_invalidation_is_revoked_witness :
  revoked (fst (verify user1_web_jwt "t" SECRET JUndefined JUndefined
                  (snd (invalidate 1648431003145
                          (JObj [("user", JNum (Fin 1000)); ("client", JStr "web")])
                          (healthy ∅))))).
Proof.
  apply (token_issued_before_invalidation_is_revoked
           user1_web_jwt 1648431003145 (UserClient (JNum (Fin 1000)) (JStr "web")) (healthy ∅)
           "t" SECRET JUndefined JUndefined PAYLOAD
           (JObj [("user", JNum (Fin 1000)); ("client", JStr "web");
                  ("iat", JNum (Fin 1648431003054))])
           (Fin 1648431003054) TYPE_USER_CLIENT
           eq_refl (conj eq_refl eq_refl)); try reflexivity.
  - lia.
  - left. reflexivity.
Defined.

(** ** invalidate and revert on the store *)

(** X9. Re-invalidating an identity overwrites its record: after two
    invalidations the store is what the second alone would have left,
    the lookup returns the second clock reading, and no key but the
    identity's own has changed. *)
Theorem invalidate_again_overwrites_the_record
    (now1 now2 : Z) (i : Identity) (w : World) :
  faults w = [] ->
  identifiers_exist i ->
  let w1 := snd (invalidate now1 (params_of i) w) in
  let w2 := snd (invalidate now2 (params_of i) w1) in
  store w2 = store (snd (invalidate now2 (params_of i) w))
  /\ fst (lookup_scope i w2) = Ok (Some (JsNumber.seconds_of_date now2))
  /\ (forall k, k <> key_of i -> store w2 !! k = store w !! k).
Proof.
  intros Hf Hex w1 w2. subst w1 w2.
  rewrite (invalidate_healthy now1), (invalidate_healthy now2 i w) by done. cbn [snd].
  rewrite invalidate_healthy by done. cbn [snd store console].
  split; [by rewrite insert_insert_eq|]. split.
  - rewrite lookup_scope_healthy by done. cbn [fst store].
    by rewrite lookup_insert_eq, parse_reply_toString.
  - intros k Hk. by rewrite !lookup_insert_ne.
Qed.

Lemma invalidate_again_overwrites_the_record_witness :
  fst (lookup_scope (User (JNum (Fin 1000)))
         (snd (invalidate 1648431003300 (JObj [("user", JNum (Fin 1000))])
                 (snd (invalidate 1648431003145 (JObj [("user", JNum (Fin 1000))])
                         (healthy ∅))))))
  = Ok (Some (Fin 1648431003300)).
Proof.
  pose proof (invalidate_again_overwrites_the_record
                1648431003145 1648431003300 (User (JNum (Fin 1000))) (healthy ∅)
                eq_refl eq_refl) as H.
  cbv zeta in H. destruct H as (_ & Hlookup & _). exact Hlookup.
Defined.

(** X10. For an identity with truthy identifiers and no record yet,
    [invalidate] followed by [revert] returns true and puts the world
    back exactly as it was before the invalidation (the clock not being
    at the epoch itself). *)
Theorem invalidate_then_revert_restores_the_world
    (now : Z) (i : Identity) (w : World) :
  faults w = [] ->
  now <> 0 ->
  identifiers_truthy i ->
  store w !! key_of i = None ->
  revert (params_of i) (snd (invalidate now (params_of i) w)) = (Ok true, w).
Proof.
  intros Hf Hnow Hid Hnone.
  rewrite invalidate_then_revert by (done || by destruct i).
  rewrite delete_id by done. by rewrite <- Hf, world_eta.
Qed.

Lemma invalidate_then_revert_restores_the_world_witness :
  revert (JObj [("user", JNum (Fin 1000)); ("client", JStr "web")])
    (snd (invalidate 1648431003145
            (JObj [("user", JNum (Fin 1000)); ("client", JStr "web")]) user1_invalidated))
  = (Ok true, user1_invalidated).
Proof.
  apply (invalidate_then_revert_restores_the_world
           1648431003145 (UserClient (JNum (Fin 1000)) (JStr "web")) user1_invalidated
           eq_refl); [lia | split; reflexivity | vm_compute; reflexivity].
Defined.

Lemma parseFloat_of_letter (s : string) :
  begins_with_letter_other_than_I s = true ->
  JsNumber.parseFloat s = NaN /\ negb (String.eqb s "") = true.
Proof.
  destruct s as [|c rest]; [discriminate|].
  destruct c as [[] [] [] [] [] [] [] []]; intros H; try discriminate H;
    split; reflexivity.
Qed.

(** X11. The token scope of [revert] tests the stored string and the
    other scopes test the number it parses to: a key whose value begins
    with a letter (other than the [I] of [Infinity]), which [parseFloat]
    reads as [NaN], is deleted, with result true, by [revert] of a token,
    and left in place, with result false, by [revert] of a user, a
    client or a user+client pair. *)
Theorem revert_of_unreadable_value_differs_by_scope (i : Identity) (w : World) (s : string) :
  faults w = [] ->
  identifiers_truthy i ->
  store w !! key_of i = Some s ->
  begins_with_letter_other_than_I s = true ->
  revert (params_of i) w
  = match i with
    | Token _ => (Ok true, mkWorld (delete (key_of i) (store w)) [] (console w))
    | _ => (Ok false, w)
    end.
Proof.
  intros Hf Hid Hs Hletter.
  destruct (parseFloat_of_letter s Hletter) as [Hnan Hnonempty].
  rewrite revert_dispatch by (by destruct i).
  destruct i; cbn [key_of revert_scope] in *.
  - unfold revertTokenInvalidation, bind. rewrite redis_get_healthy by done.
    unfold token_key in Hs. rewrite Hs. unfold truthy_reply. rewrite Hnonempty.
    by rewrite redis_del_healthy.
  - unfold revertUserInvalidation, bind.
    rewrite getUserInvalidationTime_healthy, Hs by done.
    unfold parse_reply. rewrite Hnonempty. cbn [truthy_time]. by rewrite Hnan.
  - unfold revertClientInvalidation, bind.
    rewrite getClientInvalidationTime_healthy, Hs by done.
    unfold parse_reply. rewrite Hnonempty. cbn [truthy_time]. by rewrite Hnan.
  - unfold revertUserClientInvalidation, bind.
    rewrite getUserClientInvalidationTime_healthy, Hs by done.
    unfold parse_reply. rewrite Hnonempty. cbn [truthy_time]. by rewrite Hnan.
Qed.

Lemma revert_of_unreadable_value_differs_by_scope_witness :
  revert (JStr "t") token_junk = (Ok true, healthy (delete "t" (store token_junk)))
  /\ revert (JObj [("user", JNum (Fin 1000))]) user1_junk = (Ok false, user1_junk).
Proof.
  split.
  - exact (revert_of_unreadable_value_differs_by_scope (Token "t") token_junk "revoked"
             eq_refl I eq_refl eq_refl).
  - exact (revert_of_unreadable_value_differs_by_scope (User (JNum (Fin 1000))) user1_junk
             "revoked" eq_refl eq_refl eq_refl eq_refl).
Defined.

(** [null] and [undefined] in place of the params of [invalidate]
    and [revert], and [null] in place of the options of [sign], end in
    a TypeError: no store command is sent and jsonwebtoken is not
    called. *)
Theorem nullish_arguments_are_type_errors
    (jwt : JwtLib) (now : Z) (payload secretOrPrivateKey callback : JsValue) (w : World) :
  invalidate now JNull w = (Throw TypeError, w)
  /\ invalidate now JUndefined w = (Throw TypeError, w)
  /\ revert JNull w = (Throw TypeError, w)
  /\ revert JUndefined w = (Throw TypeError, w)
  /\ sign jwt now payload secretOrPrivateKey JNull callback = (Throw TypeError, JNull).
Proof. repeat split. Qed.

(** ** Keys of different scopes *)

Lemma string_length_app (a b : string) :
  String.length (a +:+ b) = (String.length a + String.length b)%nat.
Proof. induction a as [|c a IH]; simpl; [done | by rewrite IH]. Qed.

(** X12. A token that carries a user and no client is not touched by the
    invalidation of that user paired with a client: [verify] answers for
    it as before (the token string itself not being the pair's key). *)
Theorem user_client_invalidation_spares_tokens_without_client
    jwt (now : Z) (client : JsValue) w token secret options callback decoded jwtiHeader iat :
  faults w = [] ->
  jwt_verify jwt token secret options callback = Ok decoded ->
  truthy decoded = true ->
  metadata jwt token = Some jwtiHeader ->
  issuance jwtiHeader decoded = JNum iat ->
  JsNumber.truthy iat = true ->
  jwtiParamExists (get_prop jwtiHeader "user") = true ->
  jwtiParamExists (get_prop jwtiHeader "client") = false ->
  jwtiParamExists client = true ->
  token <> user_client_key (get_prop jwtiHeader "user") client ->
  fst (verify jwt token secret options callback
         (snd (invalidate now
                 (JObj [("user", get_prop jwtiHeader "user"); ("client", client)]) w)))
  = fst (verify jwt token secret options callback w).
Proof.
  intros Hf Hv Hd Hm Hi Ht Hu Hc Hcl Htok.
  set (user := get_prop jwtiHeader "user") in *.
  change (JObj [("user", user); ("client", client)]) with (params_of (UserClient user client)).
  rewrite invalidate_healthy by done. cbn [snd].
  set (w' := mkWorld _ [] _).
  assert (Hf' : faults w' = []) by done.
  rewrite (verify_healthy _ _ _ _ _ _ _ _ _ Hf Hv Hd Hm Hi Ht).
  rewrite (verify_healthy _ _ _ _ _ _ _ _ _ Hf' Hv Hd Hm Hi Ht). cbn [fst].
  apply verdict_frame. intros type key Hin. subst w'. cbn [store key_of].
  apply lookup_insert_ne. intros <-.
  unfold consulted, scoped_lookups in Hin. fold user in Hin. rewrite Hu, Hc in Hin.
  cbn [andb app In] in Hin. destruct Hin as [Hin | [Hin | []]]; injection Hin as _ Hkey.
  - apply (f_equal String.length) in Hkey.
    rewrite !string_length_app in Hkey. simpl in Hkey. lia.
  - by apply Htok.
Qed.

Lemma user_client_invalidation_spares_tokens_without_client_witness :
  fst (verify user1_jwt "t" SECRET JUndefined JUndefined
         (snd (invalidate 1648431003145
                 (JObj [("user", JNum (Fin 1000)); ("client", JStr "web")]) (healthy ∅))))
  = fst (verify user1_jwt "t" SECRET JUndefined JUndefined (healthy ∅)).
Proof.
  apply (user_client_invalidation_spares_tokens_without_client
           user1_jwt 1648431003145 (JStr "web") (healthy ∅)
           "t" SECRET JUndefined JUndefined PAYLOAD
           (JObj [("user", JNum (Fin 1000)); ("iat", JNum (Fin 1648431003054))])
           (Fin 1648431003054)
           eq_refl eq_refl eq_refl eq_refl eq_refl eq_refl eq_refl eq_refl eq_refl).
  discriminate.
Defined.

(** X13. The keys of the user scope and of the user+client scope are
    not kept apart: invalidating the single user whose identifier is the
    string [a::client::b] writes the key of the pair (user [a], client
    [b]), and a token of user [a] on client [b] issued before is then
    rejected as invalidated for that pair. *)
Theorem user_identifier_can_spell_a_user_client_key
    jwt (now : Z) (a b : string) w token secret options callback decoded jwtiHeader iat :
  faults w = [] ->
  now <> 0 ->
  jwt_verify jwt token secret options callback = Ok decoded ->
  truthy decoded = true ->
  metadata jwt token = Some jwtiHeader ->
  get_prop jwtiHeader "user" = JStr a ->
  get_prop jwtiHeader "client" = JStr b ->
  issuance jwtiHeader decoded = JNum iat ->
  JsNumber.truthy iat = true ->
  JsNumber.lt iat (JsNumber.seconds_of_date now) ->
  verify jwt token secret options callback
    (snd (invalidate now (JObj [("user", JStr (a +:+ "::client::" +:+ b))]) w))
  = (Throw (InvalidatedTokenError invalidated_message TYPE_USER_CLIENT
              (JsNumber.seconds_of_date now)),
     snd (invalidate now (JObj [("user", JStr (a +:+ "::client::" +:+ b))]) w)).
Proof.
  intros Hf Hnow Hv Hd Hm Hu Hc Hi Ht Hlt.
  set (user := JStr (a +:+ "::client::" +:+ b)).
  change (JObj [("user", user)]) with (params_of (User user)).
  rewrite invalidate_dispatch by done.
  pose proof (create_scope_record now (User user) w Hf Hnow) as Hr.
  assert (Hf' : faults (snd (create_scope now (User user) w)) = [])
    by (by rewrite create_scope_healthy).
  rewrite (verify_healthy _ _ _ _ _ _ _ _ _ Hf' Hv Hd Hm Hi Ht).
  unfold consulted, scoped_lookups. rewrite Hu, Hc. cbn [jwtiParamExists andb app].
  by erewrite verdict_head_newer.
Qed.

Lemma user_identifier_can_spell_a_user_client_key_witness :
  fst (verify user_a_client_b_jwt "t" SECRET JUndefined JUndefined
         (snd (invalidate 1648431003145 (JObj [("user", JStr "a::client::b")]) (healthy ∅))))
  = Throw (InvalidatedTokenError invalidated_message TYPE_USER_CLIENT (Fin 1648431003145)).
Proof.
  assert (Hnow : 1648431003145 <> 0) by lia.
  assert (Hlt : JsNumber.lt (Fin 1648431003054) (JsNumber.seconds_of_date 1648431003145))
    by (simpl; lia).
  rewrite (user_identifier_can_spell_a_user_client_key
             user_a_client_b_jwt 1648431003145 "a" "b" (healthy ∅)
             "t" SECRET JUndefined JUndefined PAYLOAD
             (JObj [("user", JStr "a"); ("client", JStr "b");
                    ("iat", JNum (Fin 1648431003054))])
             (Fin 1648431003054)
             eq_refl Hnow eq_refl eq_refl eq_refl eq_refl eq_refl eq_refl eq_refl Hlt).
  reflexivity.
Defined.

(** ** What sign hands to jsonwebtoken *)

Lemma assoc_assign_prop_eq k x ps : assoc k (assign_prop k x ps) = Some x.
Proof.
  induction ps as [|[k' v] rest IH]; simpl.
  - by rewrite String.eqb_refl.
  - destruct (String.eqb k k') eqn:E; simpl; [|by rewrite E].
    apply String.eqb_eq in E as <-. by rewrite String.eqb_refl.
Qed.

Lemma has_prop_false_get_prop v k : has_prop v k = false -> get_prop v k = JUndefined.
Proof.
  destruct v; try done. unfold has_prop, get_prop. intros H.
  apply bool_decide_eq_false in H. destruct (assoc k props); [|done].
  exfalso. eauto.
Qed.

(** The issuance-instant policy of [sign]: stamped when [precise] is
    truthy or the payload is not an object. *)
Lemma sign_with_options_object jwt now payload secretOrPrivateKey props callback :
  let options := JObj props in
  let iat :=
    if truthy (get_prop options "precise") || negb (bool_decide (typeof payload = TObject))
    then JNum (JsNumber.seconds_of_date now) else JUndefined in
  let jwtiHeader :=
    JObj [("user", get_prop options "user"); ("client", get_prop options "client");
          ("iat", iat)] in
  let header :=
    Object_assign (js_or (get_prop options "header") (JObj [])) [("jwti", jwtiHeader)] in
  let options1 :=
    if is_reference (get_prop options "header")
    then JObj (assign_prop "header" header props) else options in
  let options2 :=
    delete_prop (delete_prop (delete_prop options1 "user") "client") "precise" in
  sign jwt now payload secretOrPrivateKey options callback
  = (jwt_sign jwt payload secretOrPrivateKey
       (JObj (assign_prop "header" header (own_enumerable options2))) callback,
     options2).
Proof.
  cbv zeta. unfold sign. cbn [typeof truthy negb orb].
  rewrite !bool_decide_eq_true_2 by done.
  rewrite (bool_decide_eq_false_2 (TObject = TFunction)) by done.
  cbn [is_nullish negb orb]. cbv zeta.
  assert (Hp : truthy match get_prop (JObj props) "precise" with
                      | JUndefined => JBool false
                      | p => p
                      end
               = truthy (get_prop (JObj props) "precise"))
    by (by destruct (get_prop (JObj props) "precise")).
  rewrite Hp. reflexivity.
Qed.

Lemma get_prop_jwti_of_assigned target h :
  get_prop (Object_assign target [("jwti", h)]) "jwti" = h.
Proof. unfold Object_assign. cbn [fold_left fst snd get_prop]. by rewrite assoc_assign_prop_eq. Qed.

Lemma get_prop_other_of_assigned props h k :
  k <> "jwti" ->
  get_prop (Object_assign (JObj props) [("jwti", h)]) k = get_prop (JObj props) k.
Proof.
  intros Hk. unfold Object_assign. cbn [fold_left fst snd get_prop own_enumerable].
  by rewrite assoc_assign_prop_ne.
Qed.

Lemma sign_object_call
    jwt (now : Z) (payload secretOrPrivateKey callback : JsValue)
    (props : list (string * JsValue)) :
  exists passed,
    fst (sign jwt now payload secretOrPrivateKey (JObj props) callback)
    = jwt_sign jwt payload secretOrPrivateKey passed callback
    /\ has_prop passed "user" = false
    /\ has_prop passed "client" = false
    /\ has_prop passed "precise" = false
    /\ get_prop (get_prop passed "header") "jwti"
       = JObj [("user", get_prop (JObj props) "user");
               ("client", get_prop (JObj props) "client");
               ("iat",
                if truthy (get_prop (JObj props) "precise")
                   || negb (bool_decide (typeof payload = TObject))
                then JNum (JsNumber.seconds_of_date now) else JUndefined)]
    /\ (forall k, k <> "user" -> k <> "client" -> k <> "precise" -> k <> "header" ->
          get_prop passed k = get_prop (JObj props) k).
Proof.
  pose proof (sign_with_options_object jwt now payload secretOrPrivateKey props callback) as Hs.
  cbv zeta in Hs. rewrite Hs. clear Hs. cbn [fst].
  set (header := Object_assign _ _).
  set (options1 := if is_reference _ then _ else _).
  assert (Hobj : exists ps1, options1 = JObj ps1)
    by (subst options1; destruct (is_reference _); eauto).
  destruct Hobj as [ps1 Hps1].
  assert (Hframe : forall k, k <> "header" -> assoc k ps1 = assoc k props).
  { intros k Hk. subst options1. destruct (is_reference _); injection Hps1 as <-; [|done].
    by rewrite assoc_assign_prop_ne. }
  rewrite Hps1. cbn [delete_prop own_enumerable].
  eexists. split; [reflexivity|].
  unfold has_prop, get_prop.
  rewrite !assoc_assign_prop_ne by done.
  repeat split.
  - rewrite !assoc_remove_prop_ne by done. rewrite assoc_remove_prop_eq.
    apply bool_decide_eq_false. by intros [? [=]].
  - rewrite assoc_remove_prop_ne by done. rewrite assoc_remove_prop_eq.
    apply bool_decide_eq_false. by intros [? [=]].
  - rewrite assoc_remove_prop_eq. apply bool_decide_eq_false. by intros [? [=]].
  - rewrite assoc_assign_prop_eq. cbn [default]. subst header.
    apply get_prop_jwti_of_assigned.
  - intros k Hu Hc Hp Hh.
    rewrite assoc_assign_prop_ne, !assoc_remove_prop_ne by done.
    by rewrite Hframe.
Qed.


Lemma sign_object_result jwt now payload secretOrPrivateKey callback props :
  exists props',
    snd (sign jwt now payload secretOrPrivateKey (JObj props) callback) = JObj props'
    /\ get_prop (JObj props') "user" = JUndefined
    /\ get_prop (JObj props') "client" = JUndefined
    /\ get_prop (JObj props') "precise" = JUndefined.
Proof.
  pose proof (sign_with_options_object jwt now payload secretOrPrivateKey props callback) as Hs.
  cbv zeta in Hs. rewrite Hs. clear Hs. cbn [snd].
  set (options1 := if is_reference _ then _ else _).
  assert (Hobj : exists ps1, options1 = JObj ps1)
    by (subst options1; destruct (is_reference _); eauto).
  destruct Hobj as [ps1 ->]. cbn [delete_prop]. eexists. split; [reflexivity|].
  cbn [get_prop].
  rewrite !assoc_remove_prop_ne by done.
  rewrite (assoc_remove_prop_ne "precise" "client") by done.
  by rewrite !assoc_remove_prop_eq.
Qed.

(** X14. With an options object, [sign] calls jsonwebtoken with options
    from which [user], [client] and [precise] are gone, whose other
    properties apart from [header] are the caller's, and whose
    [header.jwti] holds the caller's [user] and [client] and the
    issuance instant: the clock reading when [precise] is truthy or the
    payload is not an object, [undefined] otherwise. *)
Theorem sign_hands_jsonwebtoken_clean_options_and_jwti_header
    jwt (now : Z) (payload secretOrPrivateKey callback : JsValue)
    (props : list (string * JsValue)) :
  exists passed,
    fst (sign jwt now payload secretOrPrivateKey (JObj props) callback)
    = jwt_sign jwt payload secretOrPrivateKey passed callback
    /\ has_prop passed "user" = false
    /\ has_prop passed "client" = false
    /\ has_prop passed "precise" = false
    /\ get_prop (get_prop passed "header") "jwti"
       = JObj [("user", get_prop (JObj props) "user");
               ("client", get_prop (JObj props) "client");
               ("iat",
                if truthy (get_prop (JObj props) "precise")
                   || negb (bool_decide (typeof payload = TObject))
                then JNum (JsNumber.seconds_of_date now) else JUndefined)]
    /\ (forall k, k <> "user" -> k <> "client" -> k <> "precise" -> k <> "header" ->
          get_prop passed k = get_prop (JObj props) k).
Proof. apply sign_object_call. Qed.

(** X15. [Object.assign] writes into the caller's own header object:
    when the options carry a [header] object, after [sign] that object
    has gained the [jwti] property and kept its other properties; when
    they carry none, the caller's options get none. *)
Theorem sign_writes_jwti_into_caller_header
    jwt (now : Z) (payload secretOrPrivateKey callback : JsValue)
    (props : list (string * JsValue)) :
  let options' := snd (sign jwt now payload secretOrPrivateKey (JObj props) callback) in
  (forall hprops, get_prop (JObj props) "header" = JObj hprops ->
     has_prop (get_prop options' "header") "jwti" = true
     /\ (forall k, k <> "jwti" ->
           get_prop (get_prop options' "header") k = get_prop (JObj hprops) k))
  /\ (has_prop (JObj props) "header" = false -> has_prop options' "header" = false).
Proof.
  pose proof (sign_with_options_object jwt now payload secretOrPrivateKey props callback) as Hs.
  cbv zeta in *. rewrite Hs. clear Hs. cbn [snd]. split.
  - intros hprops Hh. rewrite Hh. cbn [is_reference js_or truthy].
    rewrite !get_prop_delete_prop_ne by done.
    cbn [get_prop]. rewrite assoc_assign_prop_eq. unfold default. cbn [from_option id]. split.
    + unfold Object_assign, has_prop. cbn [fold_left fst snd own_enumerable].
      rewrite assoc_assign_prop_eq. by apply bool_decide_eq_true.
    + intros k Hk. by apply get_prop_other_of_assigned.
  - intros Hno. rewrite (has_prop_false_get_prop _ _ Hno). cbn [is_reference].
    by do 3 apply has_prop_delete_prop_other.
Qed.

(** X16. An options object cannot be used twice: signing again with the
    object a first [sign] has returned gives a token without identity,
    its [header.jwti] holding [undefined] for [user] and for [client],
    and, the payload being an object, no instant either. *)
Theorem signing_again_with_same_options_drops_identity
    jwt (now1 now2 : Z) (payload1 key1 callback1 payload2 key2 callback2 : JsValue)
    (props : list (string * JsValue)) :
  let options' := snd (sign jwt now1 payload1 key1 (JObj props) callback1) in
  exists passed,
    fst (sign jwt now2 payload2 key2 options' callback2)
    = jwt_sign jwt payload2 key2 passed callback2
    /\ get_prop (get_prop (get_prop passed "header") "jwti") "user" = JUndefined
    /\ get_prop (get_prop (get_prop passed "header") "jwti") "client" = JUndefined
    /\ (typeof payload2 = TObject ->
          get_prop (get_prop (get_prop passed "header") "jwti") "iat" = JUndefined).
Proof.
  cbv zeta.
  destruct (sign_object_result jwt now1 payload1 key1 callback1 props)
    as (ps' & Hopt & Hu & Hc & Hp).
  rewrite Hopt.
  destruct (sign_object_call jwt now2 payload2 key2 callback2 ps')
    as (passed & Hcall & _ & _ & _ & Hjwti & _).
  exists passed. split; [done|]. rewrite Hjwti, Hu, Hc, Hp. cbn [truthy orb].
  repeat split; try reflexivity.
  intros Hobj. rewrite bool_decide_eq_true_2 by done. reflexivity.
Qed.

(** X17. Without options (the third argument falsy and not [null], or
    the callback itself): for an object payload [sign] is the very call
    to jsonwebtoken with the arguments as given; for any other payload
    it puts a [header.jwti] with the clock reading as [iat] in the place
    of the options and passes the third argument as the callback, the
    fourth not being passed on. *)
Theorem sign_without_options
    jwt (now : Z) (payload secretOrPrivateKey options callback : JsValue) :
  typeof options <> TObject ->
  truthy options = false \/ typeof options = TFunction ->
  (typeof payload = TObject ->
     sign jwt now payload secretOrPrivateKey options callback
     = (jwt_sign jwt payload secretOrPrivateKey options callback, options))
  /\ (typeof payload <> TObject -> now <> 0 ->
        sign jwt now payload secretOrPrivateKey options callback
        = (jwt_sign jwt payload secretOrPrivateKey
             (JObj [("header",
                     JObj [("jwti",
                            JObj [("user", JUndefined); ("client", JUndefined);
                                  ("iat", JNum (JsNumber.seconds_of_date now))])])])
             options,
           options)).
Proof.
  intros Hno Hcb.
  assert (Hbranch : negb (truthy options) || bool_decide (typeof options = TFunction) = true).
  { destruct Hcb as [-> | ->]; [done|]. rewrite bool_decide_eq_true_2 by done.
    by destruct (truthy options). }
  unfold sign. rewrite (bool_decide_eq_false_2 (typeof options = TObject)) by done.
  cbn [is_nullish get_prop assoc default from_option truthy orb]. rewrite Hbranch.
  split.
  - intros Hp. by rewrite (bool_decide_eq_true_2 (typeof payload = TObject)) by done.
  - intros Hp Hnow. rewrite (bool_decide_eq_false_2 (typeof payload = TObject)) by done.
    cbn [negb truthy]. unfold JsNumber.seconds_of_date. cbn [JsNumber.truthy].
    by destruct (Z.eqb_spec now 0).
Qed.

Lemma sign_without_options_witness :
  sign echo_jwt 1648431003054 PAYLOAD SECRET (JFun "done") JUndefined
  = (Ok (JObj [("header",
                JObj [("jwti",
                       JObj [("user", JUndefined); ("client", JUndefined);
                             ("iat", JNum (Fin 1648431003054))])])]),
     JFun "done").
Proof.
  assert (Hno : typeof (JFun "done") <> TObject) by discriminate.
  assert (Hp : typeof PAYLOAD <> TObject) by discriminate.
  assert (Hnow : 1648431003054 <> 0) by lia.
  exact (proj2 (sign_without_options echo_jwt 1648431003054 PAYLOAD SECRET (JFun "done")
                  JUndefined Hno (or_intror eq_refl)) Hp Hnow).
Defined.

(** ** revert on a record invalidate has written *)

(** X18. For an identity whose identifiers are truthy, on a working
    store: when the key of the identity holds what [invalidate] writes
    (the clock reading, the clock not at the epoch), [revert] deletes
    that key, leaves every other key and returns true; when the key is
    absent, [revert] returns false and the world, the store included,
    is exactly as it was. *)
Theorem revert_removes_record_written_by_invalidate_else_false
    (now : Z) (i : Identity) (w : World) :
  faults w = [] ->
  identifiers_truthy i ->
  (now <> 0 ->
   store w !! key_of i = Some (JsNumber.toString (JsNumber.seconds_of_date now)) ->
   revert (params_of i) w
   = (Ok true, mkWorld (delete (key_of i) (store w)) [] (console w)))
  /\ (store w !! key_of i = None -> revert (params_of i) w = (Ok false, w)).
Proof.
  intros Hf Hid. rewrite revert_dispatch by (by destruct i).
  destruct (revert_scope_healthy i w Hf) as [Hpresent Habsent].
  split; [|done].
  intros Hnow Hs. apply (Hpresent (JsNumber.seconds_of_date now)).
  unfold record. rewrite Hs, parse_reply_toString. split; [done|].
  simpl. by destruct (Z.eqb_spec now 0).
Qed.

Lemma revert_removes_record_written_by_invalidate_else_false_witness :
  revert (JObj [("user", JNum (Fin 1000))]) user1_invalidated
  = (Ok true, mkWorld (delete "user::1" (store user1_invalidated)) [] [])
  /\ revert (JObj [("client", JStr "web")]) user1_invalidated = (Ok false, user1_invalidated).
Proof.
  assert (Hnow : 1648431003145 <> 0) by lia.
  split.
  - exact (proj1 (revert_removes_record_written_by_invalidate_else_false
                    1648431003145 (User (JNum (Fin 1000))) user1_invalidated
                    eq_refl eq_refl) Hnow eq_refl).
  - exact (proj2 (revert_removes_record_written_by_invalidate_else_false
                    1648431003145 (Client (JStr "web")) user1_invalidated
                    eq_refl eq_refl) eq_refl).
Defined.
